(** * Ml-Cloud: the prediction endpoint of [index.js]

    A shallow embedding of the single source file of the service: the
    upload filter, the [predict] pipeline (signature check, decode,
    channel slice, bilinear resize, normalisation, threshold), the
    [POST /predict] handler with its error middleware, and the start-up
    sequence [app.listen] / [loadModel].

    Conventions of the embedding.
    - A Node [Buffer] is a [list byte]; reading past its end gives
      [None], the counterpart of [undefined].
    - An exception is the [Throw] case of [result]; effectful code runs
      in the monad [M], which threads the console / library call log.
    - Tensor samples are exact rationals, [None] standing for NaN;
      the rounding of 32-bit floats is not modelled.
    - The probability read back from the model is a binary64 float. *)

From Stdlib Require Import List ZArith QArith Qround String Ascii Bool Lia Lqa.
From Stdlib Require Import Strings.Byte Floats.
Import ListNotations.

Set Implicit Arguments.
Close Scope Q_scope.
Open Scope nat_scope.

(* ================================================================= *)
(** ** JavaScript values *)

(** A byte buffer ([Buffer], [Uint8Array]). *)
Definition Buffer := list byte.

(** [buf[i]]: the byte at index [i], [None] (undefined) out of range. *)
Definition buffer_get (buf : Buffer) (i : nat) : option byte := nth_error buf i.

(** [v === n] for a buffer read [v] and a number literal [n]:
    [undefined === n] is false. *)
Definition strict_eq_num (v : option byte) (n : N) : bool :=
  match v with
  | Some b => N.eqb (Byte.to_N b) n
  | None => false
  end.

(** The numbers that occur as tensor dimensions: a finite value, or the
    two results of a division by zero. *)
Inductive number : Type :=
| Num (q : Q)
| Infinity
| NaN.

Definition num_of_nat (n : nat) : number := Num (inject_Z (Z.of_nat n)).

(** [a / b] on two array lengths or products of dimensions: the exact
    quotient, [Infinity] for [a / 0] with [a > 0], NaN for [0 / 0].
    (For operands of this size the binary64 quotient is an integer
    exactly when the division leaves no remainder.) *)
Definition js_div (a b : nat) : number :=
  match b with
  | O => match a with O => NaN | S _ => Infinity end
  | S _ => Num (Qred (Z.of_nat a # Pos.of_nat b)%Q)
  end.

(** [Number.isInteger(x) && x >= 0], returning the dimension. *)
Definition as_dimension (x : number) : option nat :=
  match x with
  | Num q =>
      let r := Qred q in
      if (Pos.eqb (Qden r) 1 && Z.leb 0 (Qnum r))%bool
      then Some (Z.to_nat (Qnum r)) else None
  | Infinity | NaN => None
  end.

(** An [Error] object; only its [message] is ever read. *)
Record Error : Type := mkError { message : string }.

Inductive result (A : Type) : Type :=
| Ok (a : A)
| Throw (e : Error).
Arguments Ok {A} a.
Arguments Throw {A} e.

(* ================================================================= *)
(** ** Effects: the call log and the monad of handlers *)

Inductive event : Type :=
| EvPngRead (buf : Buffer)          (* pngjs.sync.read was called *)
| EvJpegDecode (buf : Buffer)       (* jpeg.decode was called *)
| EvModelPredict                    (* loadedModel.predict(...).data() *)
| EvConsoleError (label msg : string)
| EvConsoleLog (msg : string).

Definition M (A : Type) : Type := list event -> result A * list event.

Definition ret {A} (a : A) : M A := fun log => (Ok a, log).

Definition bind {A B} (m : M A) (k : A -> M B) : M B :=
  fun log =>
    match m log with
    | (Ok a, log') => k a log'
    | (Throw e, log') => (Throw e, log')
    end.

Definition throw {A} (e : Error) : M A := fun log => (Throw e, log).

Definition emit (ev : event) : M unit := fun log => (Ok tt, log ++ [ev]).

(** [try { body } catch (err) { handler(err) }]. *)
Definition try_catch {A} (body : M A) (handler : Error -> M A) : M A :=
  fun log =>
    match body log with
    | (Ok a, log') => (Ok a, log')
    | (Throw e, log') => handler e log'
    end.

(** A library call that returns or throws, logged as [ev]. *)
Definition call {A} (ev : event) (r : result A) : M A :=
  fun log => (r, log ++ [ev]).

Definition lift {A} (r : result A) : M A := fun log => (r, log).

Declare Scope js_scope.
Delimit Scope js_scope with js.
Notation "x <- m ;; k" := (bind m (fun x => k))
  (at level 61, m at next level, right associativity) : js_scope.
Notation "m ;;; k" := (bind m (fun _ => k))
  (at level 61, right associativity) : js_scope.

(* ================================================================= *)
(** ** Tensors *)

Inductive DType : Type := int32 | float32.

(** One sample; [None] is NaN. *)
Definition sample := option Q.

Definition sample_map2 (f : Q -> Q -> Q) (a b : sample) : sample :=
  match a, b with
  | Some x, Some y => Some (f x y)
  | _, _ => None
  end.

(** A rank-3 tensor [height, width, channels], row-major. *)
Record Tensor3D : Type := mkTensor3D {
  shape3 : nat * nat * nat;
  dtype3 : DType;
  values3 : list sample
}.

(** A rank-4 tensor [batch, height, width, channels]. *)
Record Tensor4D : Type := mkTensor4D {
  shape4 : nat * nat * nat * nat;
  dtype4 : DType;
  values4 : list sample
}.

Definition sample_of_byte (b : byte) : sample :=
  Some (inject_Z (Z.of_N (Byte.to_N b))).

(** [tf.tensor3d(values, [d0, d1, d2], dtype)] on a typed array: every
    dimension must be a non-negative integer and their product must be
    the number of values. *)
Definition tf_tensor3d (values : list byte) (shape : number * number * number)
    (dt : DType) : result Tensor3D :=
  let '(d0, d1, d2) := shape in
  match as_dimension d0, as_dimension d1, as_dimension d2 with
  | Some h, Some w, Some c =>
      if Nat.eqb (h * w * c) (List.length values)
      then Ok (mkTensor3D (h, w, c) dt (map sample_of_byte values))
      else Throw (mkError "Based on the provided shape, the tensor should have a different number of values")
  | _, _, _ =>
      Throw (mkError "Tensor must have a shape comprised of positive integers")
  end.

(* ================================================================= *)
(** ** External packages *)

(** What a decoder returns: [{ width, height, data }]. *)
Record Image : Type := mkImage {
  width : nat;
  height : nat;
  data : list byte
}.

(** The packages the file requires and whose code is not part of it:
    [path.extname], [pngjs.sync.read] and [jpeg.decode]. *)
Class Packages : Type := {
  path_extname : string -> string;
  pngjs_sync_read : Buffer -> result Image;
  jpeg_decode : Buffer -> result Image
}.

(* ================================================================= *)
(** ** [predict], lines 53-60: signature check and decode *)

Local Open Scope js_scope.

(** [imageBuffer[0] === 137 && imageBuffer[1] === 80 &&
     imageBuffer[2] === 78 && imageBuffer[3] === 71]. *)
Definition is_png_header (imageBuffer : Buffer) : bool :=
  strict_eq_num (buffer_get imageBuffer 0) 137 &&
  strict_eq_num (buffer_get imageBuffer 1) 80 &&
  strict_eq_num (buffer_get imageBuffer 2) 78 &&
  strict_eq_num (buffer_get imageBuffer 3) 71.

Section Decode.
Context {P : Packages}.

Definition decode_png (imageBuffer : Buffer) : M Tensor3D :=
  png <- call (EvPngRead imageBuffer) (pngjs_sync_read imageBuffer) ;;
  lift (tf_tensor3d (data png)
          (num_of_nat (height png), num_of_nat (width png), num_of_nat 4) int32).

Definition decode_jpeg (imageBuffer : Buffer) : M Tensor3D :=
  img <- call (EvJpegDecode imageBuffer) (jpeg_decode imageBuffer) ;;
  lift (tf_tensor3d (data img)
          (num_of_nat (height img), num_of_nat (width img),
           js_div (List.length (data img)) (width img * height img)) int32).

Definition decode_input (imageBuffer : Buffer) : M Tensor3D :=
  if is_png_header imageBuffer
  then decode_png imageBuffer
  else decode_jpeg imageBuffer.

End Decode.

(* ================================================================= *)
(** ** [predict], lines 63-71: slice, resize, normalise *)

(** [xValues[i]] on the flat backing array; an index outside it reads
    [undefined], which arithmetic turns into NaN. *)
Definition read_sample (xs : list sample) (i : Z) : sample :=
  if (i <? 0)%Z then None else nth (Z.to_nat i) xs None.

(** One entry of the [size] argument of [tf.slice]: [-1] means up to
    the end of the axis. *)
Definition slice_extent (dim b : nat) (s : Z) : option nat :=
  if (0 <=? s)%Z then Some (Z.to_nat s)
  else if (s =? -1)%Z then Some (dim - b)
  else None.

(** [tf.slice(x, begin, size)] on a rank-3 tensor. *)
Definition tf_slice (x : Tensor3D) (begin : nat * nat * nat) (size : Z * Z * Z)
    : result Tensor3D :=
  let '(h, w, c) := shape3 x in
  let '(b0, b1, b2) := begin in
  let '(z0, z1, z2) := size in
  match slice_extent h b0 z0, slice_extent w b1 z1, slice_extent c b2 z2 with
  | Some s0, Some s1, Some s2 =>
      if (b0 + s0 <=? h) && (b1 + s1 <=? w) && (b2 + s2 <=? c)
      then
        Ok (mkTensor3D (s0, s1, s2) (dtype3 x)
              (flat_map (fun i =>
                 flat_map (fun j =>
                   map (fun k => read_sample (values3 x)
                                   (Z.of_nat ((i * w + j) * c + k)))
                       (seq b2 s2))
                   (seq b1 s1))
                 (seq b0 s0)))
      else Throw (mkError "begin + size would overflow input.shape")
  | _, _, _ => Throw (mkError "Negative size values should be exactly -1")
  end.

(** The source coordinate of output index [r] along one axis of
    [resizeBilinear] (alignCorners and halfPixelCenters both false):
    the lower neighbour, the fractional part, the upper neighbour. *)
Definition source_coord (oldSize newSize r : nat) : Z * Q * Z :=
  let ratio := (Z.of_nat oldSize # Pos.of_nat newSize)%Q in
  let sourceFrac := (ratio * inject_Z (Z.of_nat r))%Q in
  let sourceFloor := Z.max 0 (Qfloor sourceFrac) in
  let frac := (sourceFrac - inject_Z sourceFloor)%Q in
  let sourceCeil := Z.min (Z.of_nat oldSize - 1) (Qceiling sourceFrac) in
  (sourceFloor, frac, sourceCeil).

(** [a + (b - a) * t] on samples. *)
Definition lerp (a b : sample) (t : Q) : sample :=
  sample_map2 (fun x y => x + (y - x) * t)%Q a b.

(** [tf.image.resizeBilinear(images, [newHeight, newWidth])] on a
    rank-3 tensor; the result is float32. *)
Definition tf_image_resizeBilinear (images : Tensor3D) (size : nat * nat)
    : Tensor3D :=
  let '(oldHeight, oldWidth, numChannels) := shape3 images in
  let '(newHeight, newWidth) := size in
  let xValues := values3 images in
  let rowStride := (Z.of_nat oldWidth * Z.of_nat numChannels)%Z in
  let colStride := Z.of_nat numChannels in
  mkTensor3D (newHeight, newWidth, numChannels) float32
    (flat_map (fun r =>
       let '(sourceRowFloor, rowFrac, sourceRowCeil) :=
         source_coord oldHeight newHeight r in
       let topRowOffset := (sourceRowFloor * rowStride)%Z in
       let botRowOffset := (sourceRowCeil * rowStride)%Z in
       flat_map (fun c =>
         let '(sourceColFloor, colFrac, sourceColCeil) :=
           source_coord oldWidth newWidth c in
         let topLeftOffset := (topRowOffset + sourceColFloor * colStride)%Z in
         let botLeftOffset := (botRowOffset + sourceColFloor * colStride)%Z in
         let topRightOffset := (topRowOffset + sourceColCeil * colStride)%Z in
         let botRightOffset := (botRowOffset + sourceColCeil * colStride)%Z in
         map (fun d =>
           let topLeft := read_sample xValues (topLeftOffset + Z.of_nat d) in
           let bottomLeft := read_sample xValues (botLeftOffset + Z.of_nat d) in
           let topRight := read_sample xValues (topRightOffset + Z.of_nat d) in
           let bottomRight := read_sample xValues (botRightOffset + Z.of_nat d) in
           let top := lerp topLeft topRight colFrac in
           let bottom := lerp bottomLeft bottomRight colFrac in
           match top, bottom with
           | Some t, Some b => Some (t + (b - t) * rowFrac)%Q
           | _, _ => None
           end)
           (seq 0 numChannels))
         (seq 0 newWidth))
       (seq 0 newHeight)).

(** [x.expandDims(0)]. *)
Definition expandDims0 (x : Tensor3D) : Tensor4D :=
  let '(h, w, c) := shape3 x in
  mkTensor4D (1, h, w, c) (dtype3 x) (values3 x).

(** [x.toFloat()]: a cast of the dtype. *)
Definition toFloat (x : Tensor4D) : Tensor4D :=
  mkTensor4D (shape4 x) float32 (values4 x).

(** [x.div(k)] for a scalar [k]. *)
Definition tf_div (x : Tensor4D) (k : Q) : Tensor4D :=
  mkTensor4D (shape4 x) (dtype4 x) (map (option_map (fun v => v / k)%Q) (values4 x)).

(** Lines 63-65: drop the alpha channel of a 4-channel tensor. *)
Definition drop_alpha (inputTensor : Tensor3D) : result Tensor3D :=
  if Nat.eqb (snd (shape3 inputTensor)) 4
  then tf_slice inputTensor (0, 0, 0) (-1, -1, 3)%Z
  else Ok inputTensor.

(** Lines 68-71. *)
Definition resize_normalise (inputTensor : Tensor3D) : Tensor4D :=
  let resizedImage := tf_image_resizeBilinear inputTensor (224, 224) in
  tf_div (toFloat (expandDims0 resizedImage)) 255%Q.

(** Lines 63-71 together. *)
Definition preprocess (inputTensor : Tensor3D) : result Tensor4D :=
  match drop_alpha inputTensor with
  | Ok rgb => Ok (resize_normalise rgb)
  | Throw e => Throw e
  end.

(* ================================================================= *)
(** ** [predict], lines 74-76: inference and threshold *)

(** The loaded graph model, as far as the file uses it:
    [model.predict(tensor).data()] resolves to a typed array of floats
    or rejects. *)
Record GraphModel : Type := mkGraphModel {
  predict_data : Tensor4D -> result (list float)
}.

(** [loadedModel.predict(tensor).data()]; while [loadedModel] is still
    [undefined] the property access throws a [TypeError]. *)
Definition model_predict (loadedModel : option GraphModel) (tensor : Tensor4D)
    : M (list float) :=
  match loadedModel with
  | None => throw (mkError "Cannot read properties of undefined (reading 'predict')")
  | Some m => call EvModelPredict (predict_data m tensor)
  end.

(** [v > c] for an array read [v]: [undefined > c] is false, and so is
    [NaN > c]. *)
Definition js_gt (v : option float) (c : float) : bool :=
  match v with
  | Some x => PrimFloat.ltb c x
  | None => false
  end.

(** Lines 75-76. *)
Definition label_of (predictions : list float) : string :=
  let isCancer := js_gt (nth_error predictions 0) 0.5%float in
  if isCancer then "Cancer"%string else "Non-cancer"%string.

Section Predict.
Context {P : Packages}.

(** The body of the [try] block of [predict]. *)
Definition predict_body (loadedModel : option GraphModel) (imageBuffer : Buffer)
    : M string :=
  inputTensor <- decode_input imageBuffer ;;
  tensor <- lift (preprocess inputTensor) ;;
  predictions <- model_predict loadedModel tensor ;;
  ret (label_of predictions).

Definition predict (loadedModel : option GraphModel) (imageBuffer : Buffer)
    : M string :=
  try_catch (predict_body loadedModel imageBuffer)
    (fun err =>
       emit (EvConsoleError "Error during prediction:" (message err)) ;;;
       throw (mkError "Error processing image for prediction.")).

End Predict.

(* ================================================================= *)
(** ** Strings *)

(** [c.toLowerCase()] on one ASCII character. *)
Definition lower_ascii (c : ascii) : ascii :=
  let n := nat_of_ascii c in
  if (65 <=? n) && (n <=? 90) then ascii_of_nat (n + 32) else c.

(** [s.toLowerCase()].  Only ASCII letters are mapped; no character
    outside ASCII lower-cases to a letter of "jpg", "jpeg" or "png",
    so the extension test below is decided the same way. *)
Fixpoint toLowerCase (s : string) : string :=
  match s with
  | EmptyString => EmptyString
  | String c s' => String (lower_ascii c) (toLowerCase s')
  end.

(** [s.startsWith(p)]. *)
Definition startsWith (s p : string) : bool := String.prefix p s.

(** [xs.includes(x)] on an array of strings. *)
Definition includes (xs : list string) (x : string) : bool :=
  existsb (String.eqb x) xs.

(* ================================================================= *)
(** ** HTTP: upload filter, handler, error middleware *)

#[local] Unset Elimination Schemes.
Inductive json : Type :=
| JString (s : string)
| JObject (fields : list (string * json)).
#[local] Set Elimination Schemes.

Fixpoint json_field (k : string) (fields : list (string * json)) : option json :=
  match fields with
  | [] => None
  | (k', v) :: rest => if String.eqb k k' then Some v else json_field k rest
  end.

(** [obj.k] on a response body. *)
Definition json_get (k : string) (j : json) : option json :=
  match j with
  | JObject fields => json_field k fields
  | JString _ => None
  end.

Record Response : Type := mkResponse {
  status : nat;
  body : json
}.

(** A file part of the multipart body. *)
Record File : Type := mkFile {
  fieldname : string;
  originalname : string;
  mimetype : string;
  buffer : Buffer
}.

(** A [POST /predict] request: the file part of its multipart body, if
    there is one, and the two values drawn while answering it.  A part
    sent without a file name is no file part to multer, so such a
    request has [file_part = None]. *)
Record Request : Type := mkRequest {
  file_part : option File;
  fresh_uuid : string;          (* uuidv4() *)
  now_iso : string              (* new Date().toISOString() *)
}.

(** [limits: { fileSize: 1000000 }]. *)
Definition fileSize_limit : N := 1000000.

Section Upload.
Context {P : Packages}.

(** The [fileFilter] of the multer configuration; [cb(err)] is
    [Throw err] and [cb(null, true)] is [Ok true]. *)
Definition fileFilter (file : File) : result bool :=
  if negb (startsWith (mimetype file) "image/")
  then Throw (mkError "Only image files are allowed!")
  else
    let ext := toLowerCase (path_extname (originalname file)) in
    if negb (includes [".jpg"; ".jpeg"; ".png"]%string ext)
    then Throw (mkError "Only JPG, JPEG, and PNG files are allowed!")
    else Ok true.

(** [upload.single(field)]: multer either passes an error to [next] or
    calls the handler with [req.file] set or left undefined.  A file in
    another field is refused, then the filter runs, then the size limit
    applies while the part is read: the part is cut off and refused as
    soon as the bytes read reach [fileSize], so a body of exactly
    [fileSize] bytes is refused too. *)
Definition upload_single (field : string) (req : Request)
    : result (option File) :=
  match file_part req with
  | None => Ok None
  | Some file =>
      if negb (String.eqb (fieldname file) field)
      then Throw (mkError "Unexpected field")
      else
        match fileFilter file with
        | Throw e => Throw e
        | Ok false => Ok None
        | Ok true =>
            if (fileSize_limit <=? N.of_nat (List.length (buffer file)))%N
            then Throw (mkError "File too large")
            else Ok (Some file)
        end
  end.

Definition fail_body (msg : string) : json :=
  JObject [("status", JString "fail"); ("message", JString msg)]%string.

(** The body sent at lines 108-117. *)
Definition success_body (req : Request) (result : string) : json :=
  let suggestion :=
    if String.eqb result "Cancer"
    then "Segera periksa ke dokter!"%string
    else "Penyakit kanker tidak terdeteksi."%string in
  let predictionId := fresh_uuid req in
  let createdAt := now_iso req in
  JObject [("status", JString "success");
           ("message", JString "Prediction completed successfully");
           ("data", JObject [("id", JString predictionId);
                             ("result", JString result);
                             ("suggestion", JString suggestion);
                             ("createdAt", JString createdAt)])]%string.

(** The body sent at lines 120-124 for a caught [err]. *)
Definition error_body (err : Error) : json :=
  JObject [("status", JString "fail");
           ("message", JString "Terjadi kesalahan dalam melakukan prediksi");
           ("error", JString (message err))]%string.

(** The handler of [app.post('/predict', ...)], lines 88-126. *)
Definition predict_handler (loadedModel : option GraphModel) (req : Request)
    (req_file : option File) : M Response :=
  try_catch
    (match req_file with
     | None => ret (mkResponse 400 (fail_body "No file uploaded"))
     | Some file =>
         let imageBuffer := buffer file in
         result <- predict loadedModel imageBuffer ;;
         ret (mkResponse 200 (success_body req result))
     end)
    (fun err =>
       emit (EvConsoleError "Prediction error:" (message err)) ;;;
       ret (mkResponse 500 (error_body err))).

(** The error-handling middleware, lines 129-135. *)
Definition error_middleware (err : Error) : M Response :=
  emit (EvConsoleError "Error:" (message err)) ;;;
  ret (mkResponse 400 (fail_body (message err))).

(** [POST /predict] through the middleware chain. *)
Definition post_predict (loadedModel : option GraphModel) (req : Request)
    : M Response :=
  match upload_single "image" req with
  | Throw err => error_middleware err
  | Ok req_file => predict_handler loadedModel req req_file
  end.

End Upload.

(* ================================================================= *)
(** ** Start-up, lines 33-45 and 138-141 *)

(** What the process has done so far that can be seen from outside. *)
Inductive pevent : Type :=
| PListening                    (* the server accepts connections *)
| PLoadModelCalled              (* loadModel() was entered *)
| PModelLoaded                  (* tf.loadGraphModel resolved *)
| PExit (code : nat)            (* process.exit(code) *)
| PResponse (r : Response).     (* a POST /predict was answered *)

Inductive phase : Type :=
| NotStarted                    (* before app.listen *)
| Loading                       (* listening; the callback awaits the model *)
| Ready                         (* listening; the model is loaded *)
| Exited (code : nat).

Record Process : Type := mkProcess {
  proc_phase : phase;
  loadedModel : option GraphModel;      (* let loadedModel; *)
  trace : list pevent
}.

Definition initial : Process := mkProcess NotStarted None [].

(** The server accepts connections. *)
Definition accepting (p : Process) : bool :=
  match proc_phase p with
  | Loading | Ready => true
  | NotStarted | Exited _ => false
  end.

Definition is_load_call (e : pevent) : bool :=
  match e with PLoadModelCalled => true | _ => false end.

(** How often [loadModel] has been entered. *)
Definition load_calls (p : Process) : nat :=
  List.length (filter is_load_call (trace p)).

Section Startup.
Context {P : Packages}.

(** One step of the process.  [app.listen(PORT, cb)] binds the port and
    runs [cb], which enters [loadModel] and suspends at its [await];
    binding the port is taken to succeed.  The pending load then
    resolves or rejects, and meanwhile every request that arrives is
    answered with the model variable as it is at that moment (the
    handler reads it before its first [await]). *)
Inductive step : Process -> Process -> Prop :=
| step_listen : forall p,
    proc_phase p = NotStarted ->
    step p (mkProcess Loading (loadedModel p)
              (trace p ++ [PListening; PLoadModelCalled]))
| step_load_ok : forall p m,
    proc_phase p = Loading ->
    step p (mkProcess Ready (Some m) (trace p ++ [PModelLoaded]))
| step_load_fail : forall p,
    proc_phase p = Loading ->
    step p (mkProcess (Exited 1) (loadedModel p) (trace p ++ [PExit 1]))
| step_request : forall p req r log,
    accepting p = true ->
    post_predict (loadedModel p) req [] = (Ok r, log) ->
    step p (mkProcess (proc_phase p) (loadedModel p) (trace p ++ [PResponse r])).

Inductive reachable : Process -> Prop :=
| reach_init : reachable initial
| reach_step : forall p q, reachable p -> step p q -> reachable q.

End Startup.

(* ================================================================= *)
(** ** Propositions about the service *)

(** The error [predict] throws at line 79. *)
Definition generic_error : Error :=
  mkError "Error processing image for prediction.".

(** The reading of the 500 response under which its [error] field is
    the message of the decode or inference error that made the [try]
    block of [predict] fail. *)
Definition error_field_is_cause : Prop :=
  forall (P : Packages) lm req file log e log1,
    upload_single "image" req = Ok (Some file) ->
    predict_body lm (buffer file) log = (Throw e, log1) ->
    exists r log2,
      post_predict lm req log = (Ok r, log2) /\
      status r = 500 /\
      json_get "status" (body r) = Some (JString "fail") /\
      json_get "error" (body r) = Some (JString (message e)).

(** The reading of the start-up order under which the load has
    completed whenever the server accepts connections. *)
Definition loaded_before_accepting : Prop :=
  forall (P : Packages) p,
    reachable p -> accepting p = true -> loadedModel p <> None.


(** *** Bilinear resampling, stated on its own

    The value the documentation of bilinear resizing prescribes for an
    output sample, written with integer division instead of the
    floating-point floor and ceiling of the kernel: output index [r]
    on an axis resized from [oldSize] to [newSize] lies at source
    position [r * oldSize / newSize]; its two neighbours are the
    integer part and the next index (clamped to the last one), and the
    weight of the second is the fractional part. *)

Definition axis_low (oldSize newSize r : nat) : nat :=
  (r * oldSize) / newSize.

Definition axis_high (oldSize newSize r : nat) : nat :=
  Nat.min (oldSize - 1)
    (if Nat.eqb ((r * oldSize) mod newSize) 0
     then (r * oldSize) / newSize
     else S ((r * oldSize) / newSize)).

Definition axis_weight (oldSize newSize r : nat) : Q :=
  (Z.of_nat ((r * oldSize) mod newSize) # Pos.of_nat newSize)%Q.

(** The sample of channel [d] at row [y], column [x] of a tensor. *)
Definition sample_at (t : Tensor3D) (y x d : nat) : Q :=
  let '(h, w, c) := shape3 t in
  match nth ((y * w + x) * c + d) (values3 t) None with
  | Some q => q
  | None => 0%Q
  end.

(** The weighted mean of the four neighbours of output sample
    [(r, col)] in channel [d] of [t], for a resize to
    [newHeight x newWidth]. *)
Definition bilinear_spec (t : Tensor3D) (newHeight newWidth r col d : nat) : Q :=
  let '(h, w, c) := shape3 t in
  let y0 := axis_low h newHeight r in
  let y1 := axis_high h newHeight r in
  let fy := axis_weight h newHeight r in
  let x0 := axis_low w newWidth col in
  let x1 := axis_high w newWidth col in
  let fx := axis_weight w newWidth col in
  ((1 - fy) * ((1 - fx) * sample_at t y0 x0 d + fx * sample_at t y0 x1 d) +
   fy * ((1 - fx) * sample_at t y1 x0 d + fx * sample_at t y1 x1 d))%Q.

(** The state right after [app.listen]: the port is bound, the
    callback has entered [loadModel] and waits for the download. *)
Definition listening_state : Process :=
  mkProcess Loading None [PListening; PLoadModelCalled].

(** What holds of the process in each phase. *)
Definition startup_invariant (p : Process) : Prop :=
  match proc_phase p with
  | NotStarted => loadedModel p = None /\ trace p = []
  | Loading =>
      loadedModel p = None /\ load_calls p = 1 /\
      exists rest, trace p = PListening :: PLoadModelCalled :: rest
  | Ready =>
      loadedModel p <> None /\ load_calls p = 1 /\
      exists rest, trace p = PListening :: PLoadModelCalled :: rest
  | Exited code =>
      code = 1 /\ loadedModel p = None /\ load_calls p = 1 /\
      exists rest, trace p = PListening :: PLoadModelCalled :: rest
  end.

(* ================================================================= *)
(** ** Concrete packages for running the model *)

Module Fixture.

(** The text after the last dot of a plain file name, dot included. *)
Fixpoint last_dot_suffix (s : string) : option string :=
  match s with
  | EmptyString => None
  | String c s' =>
      match last_dot_suffix s' with
      | Some ext => Some ext
      | None => if Ascii.eqb c "." then Some s else None
      end
  end.

Definition extname (s : string) : string :=
  match last_dot_suffix s with Some ext => ext | None => EmptyString end.

Definition dim_of_byte (b : byte) : nat := N.to_nat (Byte.to_N b).

(** A raw pixel container: four signature bytes, one byte of width,
    one of height, then [samplesPerPixel] bytes for each pixel. *)
Definition read_raw (signature : list byte) (samplesPerPixel : nat)
    (errmsg : string) (buf : Buffer) : result Image :=
  match buf with
  | s0 :: s1 :: s2 :: s3 :: w :: h :: pixels =>
      if list_eq_dec Byte.byte_eq_dec [s0; s1; s2; s3] signature
      then
        if Nat.eqb (List.length pixels)
                   (dim_of_byte w * dim_of_byte h * samplesPerPixel)
        then Ok (mkImage (dim_of_byte w) (dim_of_byte h) pixels)
        else Throw (mkError "unexpected end of input")
      else Throw (mkError errmsg)
  | _ => Throw (mkError errmsg)
  end.

Definition png_signature : list byte := [x89; x50; x4e; x47].
Definition jpeg_signature : list byte := [xff; xd8; xff; xe0].

#[global] Instance packages : Packages | 100 := {|
  path_extname := extname;
  pngjs_sync_read := read_raw png_signature 4 "Invalid file signature";
  jpeg_decode := read_raw jpeg_signature 4 "SOI not found"
|}.

(** A model that answers with one fixed probability. *)
Definition constant_model (p : float) : GraphModel :=
  mkGraphModel (fun _ => Ok [p]).

(** A model whose inference always rejects. *)
Definition failing_model : GraphModel :=
  mkGraphModel (fun _ => Throw (mkError "shape mismatch")).

(** One opaque red pixel as a PNG-tagged buffer. *)
Definition red_png : Buffer :=
  png_signature ++ [x01; x01; xff; x00; x00; xff].

(** One opaque red pixel as a JPEG-tagged buffer. *)
Definition red_jpeg : Buffer :=
  jpeg_signature ++ [x01; x01; xff; x00; x00; xff].

(** The tensor decoded from that pixel. *)
Definition red_pixel : Tensor3D :=
  mkTensor3D (1, 1, 4) int32 (map sample_of_byte [xff; x00; x00; xff]).

Definition upload_of (name mime : string) (content : Buffer) : Request :=
  mkRequest (Some (mkFile "image" name mime content))
            "00000000-0000-4000-8000-000000000000"
            "2024-01-01T00:00:00.000Z".

Definition empty_request : Request :=
  mkRequest None "00000000-0000-4000-8000-000000000000"
            "2024-01-01T00:00:00.000Z".

End Fixture.

(* ================================================================= *)
(** ** Start-up in detail: console output and exit *)

(** Line 13. *)
Definition MODEL_URL : string :=
  "https://storage.googleapis.com/newmodel2/submissions-model/model.json".

(** Line 10, [process.env.PORT || 4000], as the template string of
    line 140 prints it: an unset or empty variable gives 4000. *)
Definition PORT (env_PORT : option string) : string :=
  match env_PORT with
  | Some EmptyString | None => "4000"
  | Some p => p
  end.

(** How a piece of start-up code ends: it runs to completion, or it
    calls [process.exit]. *)
Inductive outcome (A : Type) : Type :=
| Completed (a : A)
| ProcessExit (code : nat).
Arguments Completed {A} a.
Arguments ProcessExit {A} code.

(** [loadModel], lines 36-45.  [loadGraphModel] is [tf.loadGraphModel];
    the value returned on completion is the one assigned to the
    variable [loadedModel]. *)
Definition loadModel (loadGraphModel : string -> result GraphModel)
    (log : list event) : outcome (option GraphModel) * list event :=
  let log1 := log ++ [EvConsoleLog ("Loading model from: " ++ MODEL_URL)] in
  match loadGraphModel MODEL_URL with
  | Ok m => (Completed (Some m), log1 ++ [EvConsoleLog "Model loaded successfully"])
  | Throw err =>
      (ProcessExit 1, log1 ++ [EvConsoleError "Error loading model:" (message err)])
  end.

(** The text of line 140. *)
Definition running_message (port : string) : string :=
  "Server is running on port " ++ port ++ " http://localhost:" ++ port.

(** The callback given to [app.listen], lines 138-141. *)
Definition listen_callback (env_PORT : option string)
    (loadGraphModel : string -> result GraphModel) (log : list event)
    : outcome (option GraphModel) * list event :=
  match loadModel loadGraphModel log with
  | (Completed lm, log1) =>
      (Completed lm, log1 ++ [EvConsoleLog (running_message (PORT env_PORT))])
  | (ProcessExit code, log1) => (ProcessExit code, log1)
  end.

(* ================================================================= *)
(** ** Measures on logs and traces *)

Definition is_decoder_call (e : event) : bool :=
  match e with
  | EvPngRead _ | EvJpegDecode _ => true
  | _ => false
  end.

Definition is_model_call (e : event) : bool :=
  match e with
  | EvModelPredict => true
  | _ => false
  end.

Definition count_events (f : event -> bool) (log : list event) : nat :=
  List.length (filter f log).

(** The decoder the signature check selects for a buffer. *)
Definition decoder_event (buf : Buffer) : event :=
  if is_png_header buf then EvPngRead buf else EvJpegDecode buf.

Definition is_model_loaded (e : pevent) : bool :=
  match e with PModelLoaded => true | _ => false end.

(** How often the model variable has been assigned. *)
Definition loads_done (p : Process) : nat :=
  List.length (filter is_model_loaded (trace p)).

(** No [process.exit] in a trace. *)
Definition no_exit (tr : list pevent) : Prop :=
  forall code, ~ In (PExit code) tr.

(** No 200 answer in a trace. *)
Definition no_success (tr : list pevent) : Prop :=
  forall r, In (PResponse r) tr -> status r <> 200.

(** What the trace looks like in each phase. *)
Definition trace_invariant (p : Process) : Prop :=
  match proc_phase p with
  | NotStarted => trace p = []
  | Loading =>
      no_exit (trace p) /\ ~ In PModelLoaded (trace p) /\ no_success (trace p)
  | Ready =>
      no_exit (trace p) /\
      exists pre post,
        trace p = pre ++ PModelLoaded :: post /\
        ~ In PModelLoaded pre /\ ~ In PModelLoaded post /\ no_success pre
  | Exited code =>
      exists tr,
        trace p = tr ++ [PExit 1] /\
        no_exit tr /\ ~ In PModelLoaded tr /\ no_success tr
  end.

Module StartupFixture.

Definition fetch_ok : string -> result GraphModel :=
  fun _ => Ok (Fixture.constant_model 0.75).

Definition fetch_fail : string -> result GraphModel :=
  fun _ => Throw (mkError "Request failed with status 404").

(** A process that loaded its model and answered nothing yet. *)
Definition ready_state : Process :=
  mkProcess Ready (Some (Fixture.constant_model 0.75))
    [PListening; PLoadModelCalled; PModelLoaded].

(** A process whose load failed. *)
Definition exited_state : Process :=
  mkProcess (Exited 1) None [PListening; PLoadModelCalled; PExit 1].

(** The answer to the red pixel under the constant model. *)
Definition red_answer : Response :=
  mkResponse 200
    (success_body (Fixture.upload_of "scan.png" "image/png" Fixture.red_png)
       "Cancer").

(** The ready process after it answered one upload. *)
Definition answered_state : Process :=
  mkProcess Ready (Some (Fixture.constant_model 0.75))
    ([PListening; PLoadModelCalled; PModelLoaded] ++ [PResponse red_answer]).

(** The red pixel with a transparent alpha sample. *)
Definition red_pixel_transparent : Tensor3D :=
  mkTensor3D (1, 1, 4) int32 (map sample_of_byte [xff; x00; x00; x00]).

End StartupFixture.

(* ================================================================= *)
(** * Properties *)

(** ** Running the handlers *)

Section Runs.
Context {P : Packages}.

(** [predict] returns what its body returns, and replaces whatever the
    body throws by the generic error after logging the cause. *)
Lemma predict_run : forall lm buf log,
  predict lm buf log =
  match predict_body lm buf log with
  | (Ok l, log') => (Ok l, log')
  | (Throw e, log') =>
      (Throw generic_error,
       log' ++ [EvConsoleError "Error during prediction:" (message e)])
  end.
Proof.
  intros lm buf log. unfold predict, try_catch.
  destruct (predict_body lm buf log) as [[l | e] log']; reflexivity.
Qed.

Lemma handler_run_file : forall lm req file log,
  predict_handler lm req (Some file) log =
  match predict lm (buffer file) log with
  | (Ok l, log') => (Ok (mkResponse 200 (success_body req l)), log')
  | (Throw e, log') =>
      (Ok (mkResponse 500 (error_body e)),
       log' ++ [EvConsoleError "Prediction error:" (message e)])
  end.
Proof.
  intros lm req file log. unfold predict_handler, try_catch, bind.
  destruct (predict lm (buffer file) log) as [[l | e] log']; reflexivity.
Qed.

Lemma handler_run_nofile : forall lm req log,
  predict_handler lm req None log =
  (Ok (mkResponse 400 (fail_body "No file uploaded")), log).
Proof. reflexivity. Qed.

(** The route always answers: no exception escapes the chain. *)
Lemma post_predict_total : forall lm req log,
  exists r log', post_predict lm req log = (Ok r, log').
Proof.
  intros lm req log. unfold post_predict.
  destruct (upload_single "image" req) as [[file |] | err].
  - rewrite handler_run_file.
    destruct (predict lm (buffer file) log) as [[l | e] log']; eauto.
  - rewrite handler_run_nofile. eauto.
  - unfold error_middleware, bind, emit, ret. eauto.
Qed.

(** The whole chain when the [try] block of [predict] throws. *)
Lemma processing_failure_run : forall lm req file log e log1,
  upload_single "image" req = Ok (Some file) ->
  predict_body lm (buffer file) log = (Throw e, log1) ->
  post_predict lm req log =
  (Ok (mkResponse 500 (error_body generic_error)),
   log1 ++ [EvConsoleError "Error during prediction:" (message e)]
        ++ [EvConsoleError "Prediction error:" (message generic_error)]).
Proof.
  intros lm req file log e log1 Hup Hbody.
  unfold post_predict. rewrite Hup, handler_run_file, predict_run, Hbody.
  rewrite <- app_assoc. reflexivity.
Qed.

(** Without a model every run of the [try] block throws. *)
Lemma predict_body_no_model : forall buf log,
  exists e log', predict_body None buf log = (Throw e, log').
Proof.
  intros buf log. unfold predict_body, bind.
  destruct (decode_input buf log) as [[t | e] log1]; [| eauto].
  unfold lift. destruct (preprocess t) as [u | e]; [| eauto].
  unfold model_predict, throw. eauto.
Qed.

(** A label comes out of the [try] block only through the model. *)
Lemma predict_body_ok_inv : forall lm buf log l log',
  predict_body lm buf log = (Ok l, log') ->
  exists m tensor predictions,
    lm = Some m /\ predict_data m tensor = Ok predictions /\
    l = label_of predictions.
Proof.
  intros lm buf log l log'. unfold predict_body, bind.
  destruct (decode_input buf log) as [[t | e] log1]; [| discriminate].
  unfold lift. destruct (preprocess t) as [u | e]; [| discriminate].
  destruct lm as [m |]; simpl; [| discriminate].
  unfold call. destruct (predict_data m u) as [ps | e] eqn:Hp; [| discriminate].
  unfold ret. intros H. inversion H; subst.
  exists m, u, ps. auto.
Qed.

End Runs.

(** ** Bytes *)

Lemma strict_eq_num_true : forall v b,
  strict_eq_num v (Byte.to_N b) = true <-> v = Some b.
Proof.
  intros v b. destruct v as [b' |]; simpl.
  - rewrite N.eqb_eq. split.
    + intros H. f_equal.
      assert (Hs : Some b' = Some b)
        by (rewrite <- (Byte.of_to_N b'), <- (Byte.of_to_N b), H; reflexivity).
      inversion Hs; reflexivity.
    + intros H. inversion H; reflexivity.
  - split; discriminate.
Qed.

Lemma is_png_header_spec : forall buf,
  is_png_header buf = true <->
  exists rest, buf = x89 :: x50 :: x4e :: x47 :: rest.
Proof.
  intros buf. unfold is_png_header, buffer_get.
  change 137%N with (Byte.to_N x89). change 80%N with (Byte.to_N x50).
  change 78%N with (Byte.to_N x4e). change 71%N with (Byte.to_N x47).
  rewrite !andb_true_iff, !strict_eq_num_true. split.
  - intros [[[H0 H1] H2] H3].
    destruct buf as [| b0 [| b1 [| b2 [| b3 rest]]]]; simpl in *; try discriminate.
    inversion H0; inversion H1; inversion H2; inversion H3; subst. eauto.
  - intros [rest ->]. simpl. auto.
Qed.

Lemma short_buffer_not_png : forall buf,
  List.length buf < 4 -> is_png_header buf = false.
Proof.
  intros buf Hlen. destruct (is_png_header buf) eqn:E; [| reflexivity].
  apply is_png_header_spec in E. destruct E as [rest ->]. simpl in Hlen. lia.
Qed.

(** ** Dimensions *)

Lemma Qred_integer : forall z, Qred (inject_Z z) = inject_Z z.
Proof.
  intros z. unfold Qred, inject_Z.
  pose proof (Z.ggcd_gcd z 1) as Hg.
  pose proof (Z.ggcd_correct_divisors z 1) as Hd.
  destruct (Z.ggcd z 1) as [g [a b]]. simpl in *.
  rewrite Z.gcd_1_r in Hg. subst g. destruct Hd as [Ha Hb].
  rewrite Z.mul_1_l in Ha, Hb. subst a b. reflexivity.
Qed.

Lemma as_dimension_nat : forall n, as_dimension (num_of_nat n) = Some n.
Proof.
  intros n. unfold as_dimension, num_of_nat.
  rewrite Qred_integer.
  simpl. rewrite Nat2Z.id.
  destruct (Z.of_nat n) eqn:E; try reflexivity. lia.
Qed.

Lemma tensor3d_ok : forall values h w c dt,
  h * w * c = List.length values ->
  tf_tensor3d values (num_of_nat h, num_of_nat w, num_of_nat c) dt =
  Ok (mkTensor3D (h, w, c) dt (map sample_of_byte values)).
Proof.
  intros values h w c dt H. unfold tf_tensor3d.
  rewrite !as_dimension_nat. rewrite (proj2 (Nat.eqb_eq _ _) H). reflexivity.
Qed.

Lemma tensor3d_shape : forall values d0 d1 d2 dt t,
  tf_tensor3d values (d0, d1, d2) dt = Ok t ->
  exists h w c,
    as_dimension d0 = Some h /\ as_dimension d1 = Some w /\
    as_dimension d2 = Some c /\ h * w * c = List.length values /\
    t = mkTensor3D (h, w, c) dt (map sample_of_byte values).
Proof.
  intros values d0 d1 d2 dt t. unfold tf_tensor3d.
  destruct (as_dimension d0) as [h |]; [| discriminate].
  destruct (as_dimension d1) as [w |]; [| discriminate].
  destruct (as_dimension d2) as [c |]; [| discriminate].
  destruct (Nat.eqb (h * w * c) (List.length values)) eqn:E; [| discriminate].
  intros H. inversion H. apply Nat.eqb_eq in E.
  exists h, w, c. auto.
Qed.

(** ** Concrete runs *)

Example label_just_above_half :
  label_of [0.5000152587890625%float] = "Cancer"%string.
Proof. reflexivity. Qed.

Example label_of_nan : label_of [PrimFloat.nan] = "Non-cancer"%string.
Proof. reflexivity. Qed.

Example label_of_empty : label_of [] = "Non-cancer"%string.
Proof. reflexivity. Qed.

(** Seven samples for a 2 x 1 image: the quotient 7/2 is no dimension
    and the tensor is refused. *)
Example inexact_quotient_refused :
  js_div 7 (2 * 1) = Num (7 # 2)%Q /\
  tf_tensor3d [x01; x02; x03; x04; x05; x06; x07]
    (num_of_nat 1, num_of_nat 2, js_div 7 (2 * 1)) int32 =
  Throw (mkError "Tensor must have a shape comprised of positive integers").
Proof. split; reflexivity. Qed.

(** A 2 x 2 ramp resized to 4 x 4. *)
Example resize_ramp :
  map (option_map Qred)
    (values3 (tf_image_resizeBilinear
                (mkTensor3D (2, 2, 1) int32
                   [Some 0%Q; Some 10%Q; Some 20%Q; Some 30%Q]) (4, 4))) =
  map Some [0; 5; 10; 10; 10; 15; 20; 20; 20; 25; 30; 30; 20; 25; 30; 30]%Q.
Proof. vm_compute. reflexivity. Qed.

Example extension_is_lowercased :
  upload_single "image"
    (Fixture.upload_of "scan.JPeG" "image/jpeg" Fixture.red_jpeg) =
  Ok (Some (mkFile "image" "scan.JPeG" "image/jpeg" Fixture.red_jpeg)).
Proof. reflexivity. Qed.

Example wrong_extension_refused :
  fst (post_predict None
         (Fixture.upload_of "scan.gif" "image/gif" Fixture.red_jpeg) []) =
  Ok (mkResponse 400 (fail_body "Only JPG, JPEG, and PNG files are allowed!")).
Proof. reflexivity. Qed.

Example inference_failure_run :
  post_predict (Some Fixture.failing_model)
    (Fixture.upload_of "scan.png" "image/png" Fixture.red_png) [] =
  (Ok (mkResponse 500 (error_body generic_error)),
   [EvPngRead Fixture.red_png; EvModelPredict;
    EvConsoleError "Error during prediction:" "shape mismatch";
    EvConsoleError "Prediction error:" "Error processing image for prediction."]).
Proof. vm_compute. reflexivity. Qed.

(** ** The claims *)

(** C1. The label is "Cancer" exactly when the probability read from
    the model is strictly greater than 0.5; a probability of exactly
    0.5 gives "Non-cancer"; no other label exists; and every label
    [predict] returns is the threshold applied to what the model
    returned. *)
Theorem threshold_label {P : Packages} :
  (forall p rest,
      label_of (p :: rest) = "Cancer"%string <-> PrimFloat.ltb 0.5 p = true) /\
  (forall rest, label_of (0.5%float :: rest) = "Non-cancer"%string) /\
  (forall predictions,
      label_of predictions = "Cancer"%string \/
      label_of predictions = "Non-cancer"%string) /\
  (forall lm buf log l log',
      predict lm buf log = (Ok l, log') ->
      exists m tensor predictions,
        lm = Some m /\ predict_data m tensor = Ok predictions /\
        l = label_of predictions).
Proof.
  repeat split.
  - unfold label_of; simpl. destruct (PrimFloat.ltb 0.5 p); [reflexivity | discriminate].
  - unfold label_of; simpl. intros ->. reflexivity.
  - intros predictions. unfold label_of.
    destruct (js_gt (nth_error predictions 0) 0.5); auto.
  - intros lm buf log l log' H. rewrite predict_run in H.
    destruct (predict_body lm buf log) as [[l0 | e] log0] eqn:E; [| discriminate].
    inversion H; subst. eapply predict_body_ok_inv; eassumption.
Qed.

Lemma threshold_label_witness :
  exists m tensor predictions,
    Some (Fixture.constant_model 0.75) = Some m /\
    predict_data m tensor = Ok predictions /\
    "Cancer"%string = label_of predictions.
Proof.
  apply (proj2 (proj2 (proj2 (@threshold_label Fixture.packages)))
           (Some (Fixture.constant_model 0.75)) Fixture.red_png []
           "Cancer"%string [EvPngRead Fixture.red_png; EvModelPredict]).
  vm_compute. reflexivity.
Defined.

Section DecodeFacts.
Context {P : Packages}.

Lemma decode_png_run : forall buf log,
  decode_png buf log =
  (match pngjs_sync_read buf with
   | Ok png =>
       tf_tensor3d (data png)
         (num_of_nat (height png), num_of_nat (width png), num_of_nat 4) int32
   | Throw e => Throw e
   end,
   log ++ [EvPngRead buf]).
Proof.
  intros buf log. unfold decode_png, bind, call, lift.
  destruct (pngjs_sync_read buf); reflexivity.
Qed.

Lemma decode_jpeg_run : forall buf log,
  decode_jpeg buf log =
  (match jpeg_decode buf with
   | Ok img =>
       tf_tensor3d (data img)
         (num_of_nat (height img), num_of_nat (width img),
          js_div (List.length (data img)) (width img * height img)) int32
   | Throw e => Throw e
   end,
   log ++ [EvJpegDecode buf]).
Proof.
  intros buf log. unfold decode_jpeg, bind, call, lift.
  destruct (jpeg_decode buf); reflexivity.
Qed.

End DecodeFacts.

(** C5. The first four bytes decide the decoder: the buffer starts
    with 137, 80, 78, 71 exactly when the check holds; then
    [pngjs.sync.read] is the decoder called and a tensor that comes out
    has shape [height, width, 4] (and one does come out when the
    decoder returns RGBA data); every other buffer goes to
    [jpeg.decode]. *)
Theorem decode_dispatch {P : Packages} : forall buf,
  (is_png_header buf = true <->
   exists rest, buf = x89 :: x50 :: x4e :: x47 :: rest) /\
  (is_png_header buf = true ->
   forall log,
     decode_input buf log = decode_png buf log /\
     snd (decode_input buf log) = log ++ [EvPngRead buf] /\
     (forall t, fst (decode_input buf log) = Ok t ->
        exists png, pngjs_sync_read buf = Ok png /\
                    shape3 t = (height png, width png, 4)) /\
     (forall png, pngjs_sync_read buf = Ok png ->
        List.length (data png) = height png * width png * 4 ->
        exists t, fst (decode_input buf log) = Ok t /\
                  shape3 t = (height png, width png, 4))) /\
  (is_png_header buf = false ->
   forall log,
     decode_input buf log = decode_jpeg buf log /\
     snd (decode_input buf log) = log ++ [EvJpegDecode buf]).
Proof.
  intros buf. split; [apply is_png_header_spec |]. split.
  - intros Hpng log. unfold decode_input. rewrite Hpng.
    rewrite decode_png_run. cbn [fst snd]. repeat split.
    + intros t Ht. destruct (pngjs_sync_read buf) as [png | e]; [| discriminate].
      exists png. split; [reflexivity |].
      apply tensor3d_shape in Ht.
      destruct Ht as (h & w & c & Hh & Hw & Hc & _ & ->).
      rewrite as_dimension_nat in Hh, Hw, Hc.
      inversion Hh; inversion Hw; inversion Hc; reflexivity.
    + intros png -> Hlen. rewrite tensor3d_ok by (symmetry; exact Hlen).
      eexists; split; reflexivity.
  - intros Hjpg log. unfold decode_input. rewrite Hjpg.
    rewrite decode_jpeg_run. split; reflexivity.
Qed.

Lemma decode_dispatch_witness :
  decode_input Fixture.red_png [] = decode_png Fixture.red_png [] /\
  snd (decode_input Fixture.red_png []) = [] ++ [EvPngRead Fixture.red_png] /\
  (forall t, fst (decode_input Fixture.red_png []) = Ok t ->
     exists png, pngjs_sync_read Fixture.red_png = Ok png /\
                 shape3 t = (height png, width png, 4)) /\
  (forall png, pngjs_sync_read Fixture.red_png = Ok png ->
     List.length (data png) = height png * width png * 4 ->
     exists t, fst (decode_input Fixture.red_png []) = Ok t /\
               shape3 t = (height png, width png, 4)).
Proof.
  apply (proj1 (proj2 (@decode_dispatch Fixture.packages Fixture.red_png))).
  reflexivity.
Defined.

(** C10. A buffer of fewer than four bytes reads [undefined] past its
    end, fails the signature comparison without any exception and is
    handed to [jpeg.decode]; and for every buffer whatsoever the check
    finishes and one of the two decoders is called. *)
Theorem short_buffer_dispatch {P : Packages} : forall buf,
  (forall i, List.length buf <= i ->
     buffer_get buf i = None /\
     forall n, strict_eq_num (buffer_get buf i) n = false) /\
  (List.length buf < 4 ->
   is_png_header buf = false /\
   forall log,
     decode_input buf log = decode_jpeg buf log /\
     snd (decode_input buf log) = log ++ [EvJpegDecode buf]) /\
  (forall log,
     snd (decode_input buf log) = log ++ [EvPngRead buf] \/
     snd (decode_input buf log) = log ++ [EvJpegDecode buf]).
Proof.
  intros buf. repeat split.
  - apply nth_error_None; assumption.
  - intros n. unfold buffer_get.
    rewrite (proj2 (nth_error_None buf i)) by assumption. reflexivity.
  - apply short_buffer_not_png; assumption.
  - unfold decode_input. rewrite short_buffer_not_png by assumption. reflexivity.
  - unfold decode_input. rewrite short_buffer_not_png by assumption.
    rewrite decode_jpeg_run. reflexivity.
  - intros log. unfold decode_input.
    destruct (is_png_header buf).
    + left. rewrite decode_png_run. reflexivity.
    + right. rewrite decode_jpeg_run. reflexivity.
Qed.

Lemma short_buffer_dispatch_witness :
  is_png_header [x89; x50; x4e] = false /\
  forall log,
    decode_input [x89; x50; x4e] log = decode_jpeg [x89; x50; x4e] log /\
    snd (decode_input [x89; x50; x4e] log) =
    log ++ [EvJpegDecode [x89; x50; x4e]].
Proof.
  apply (proj1 (proj2 (@short_buffer_dispatch Fixture.packages [x89; x50; x4e]))).
  simpl. lia.
Defined.

(** C8. A request that gets through multer with no file in the
    [image] field is answered with status 400 and exactly the body
    [{ status: 'fail', message: 'No file uploaded' }]; the call log is
    left as it was, so neither decoder nor the model was called. *)
Theorem missing_file_response {P : Packages} : forall lm req,
  (file_part req = None -> upload_single "image" req = Ok None) /\
  (upload_single "image" req = Ok None ->
   forall log,
     post_predict lm req log =
     (Ok (mkResponse 400
            (JObject [("status", JString "fail");
                      ("message", JString "No file uploaded")]%string)),
      log)).
Proof.
  intros lm req. split.
  - intros H. unfold upload_single. rewrite H. reflexivity.
  - intros H log. unfold post_predict. rewrite H. apply handler_run_nofile.
Qed.

Lemma missing_file_response_witness :
  post_predict (Some (Fixture.constant_model 0.75)) Fixture.empty_request [] =
  (Ok (mkResponse 400
         (JObject [("status", JString "fail");
                   ("message", JString "No file uploaded")]%string)),
   []).
Proof.
  apply (proj2 (@missing_file_response Fixture.packages
                  (Some (Fixture.constant_model 0.75)) Fixture.empty_request)).
  reflexivity.
Defined.

Section UploadFacts.
Context {P : Packages}.

Lemma error_middleware_run : forall err log,
  error_middleware err log =
  (Ok (mkResponse 400 (fail_body (message err))),
   log ++ [EvConsoleError "Error:" (message err)]).
Proof. reflexivity. Qed.

(** What multer passes on for a file sent in the expected field. *)
Lemma upload_single_image : forall req file,
  file_part req = Some file ->
  fieldname file = "image"%string ->
  upload_single "image" req =
  if negb (startsWith (mimetype file) "image/")
  then Throw (mkError "Only image files are allowed!")
  else if negb (includes [".jpg"; ".jpeg"; ".png"]%string
                  (toLowerCase (path_extname (originalname file))))
  then Throw (mkError "Only JPG, JPEG, and PNG files are allowed!")
  else if (fileSize_limit <=? N.of_nat (List.length (buffer file)))%N
  then Throw (mkError "File too large")
  else Ok (Some file).
Proof.
  intros req file Hpart Hfield. unfold upload_single, fileFilter.
  rewrite Hpart, Hfield. cbn [String.eqb Ascii.eqb Bool.eqb negb].
  destruct (startsWith (mimetype file) "image/"); cbn [negb]; [| reflexivity].
  destruct (includes [".jpg"; ".jpeg"; ".png"]%string
              (toLowerCase (path_extname (originalname file))));
    reflexivity.
Qed.

End UploadFacts.

(** C7. A file whose MIME type does not start with "image/", whose
    lower-cased extension is none of .jpg, .jpeg, .png, or whose body
    exceeds 1,000,000 bytes is refused by multer with the message of
    the first check that fails, and whatever multer refuses is answered
    by the error middleware: status 400, body
    [{ status: 'fail', message: <that message> }]. *)
Theorem upload_rejection_response {P : Packages} : forall lm req,
  (forall err, upload_single "image" req = Throw err ->
     forall log,
       post_predict lm req log = error_middleware err log /\
       post_predict lm req log =
       (Ok (mkResponse 400
              (JObject [("status", JString "fail");
                        ("message", JString (message err))]%string)),
        log ++ [EvConsoleError "Error:" (message err)])) /\
  (forall file,
     file_part req = Some file ->
     fieldname file = "image"%string ->
     startsWith (mimetype file) "image/" = false \/
     includes [".jpg"; ".jpeg"; ".png"]%string
       (toLowerCase (path_extname (originalname file))) = false \/
     (1000000 < N.of_nat (List.length (buffer file)))%N ->
     exists msg,
       upload_single "image" req = Throw (mkError msg) /\
       msg =
       (if negb (startsWith (mimetype file) "image/")
        then "Only image files are allowed!"
        else if negb (includes [".jpg"; ".jpeg"; ".png"]
                        (toLowerCase (path_extname (originalname file))))
        then "Only JPG, JPEG, and PNG files are allowed!"
        else "File too large")%string).
Proof.
  intros lm req. split.
  - intros err Herr log. unfold post_predict. rewrite Herr.
    split; reflexivity.
  - intros file Hpart Hfield Hbad.
    rewrite (upload_single_image req Hpart Hfield).
    destruct (startsWith (mimetype file) "image/") eqn:Hm; cbn [negb];
      [| eexists; split; reflexivity].
    destruct (includes [".jpg"; ".jpeg"; ".png"]%string
                (toLowerCase (path_extname (originalname file)))) eqn:He;
      cbn [negb]; [| eexists; split; reflexivity].
    destruct Hbad as [Hbad | [Hbad | Hbad]]; try discriminate.
    unfold fileSize_limit.
    rewrite (proj2 (N.leb_le _ _) (N.lt_le_incl _ _ Hbad)).
    eexists; split; reflexivity.
Qed.

Lemma upload_rejection_response_witness :
  exists msg,
    upload_single "image"
      (Fixture.upload_of "scan.PNG" "text/plain" Fixture.red_png) =
    Throw (mkError msg) /\
    msg = "Only image files are allowed!"%string.
Proof.
  apply (proj2 (@upload_rejection_response Fixture.packages None
                  (Fixture.upload_of "scan.PNG" "text/plain" Fixture.red_png))
           (mkFile "image" "scan.PNG" "text/plain" Fixture.red_png)).
  - reflexivity.
  - reflexivity.
  - left. reflexivity.
Defined.

(** C3, as the code has it. When decoding or inference fails for an
    accepted upload, the answer is status 500 with status "fail", the
    fixed message, and an [error] field that holds the fixed text
    thrown by [predict]; the message of the underlying error only goes
    to the console. *)
Theorem processing_failure_response {P : Packages} :
  forall lm req file log e log1,
    upload_single "image" req = Ok (Some file) ->
    predict_body lm (buffer file) log = (Throw e, log1) ->
    post_predict lm req log =
    (Ok (mkResponse 500
           (JObject [("status", JString "fail");
                     ("message", JString "Terjadi kesalahan dalam melakukan prediksi");
                     ("error", JString "Error processing image for prediction.")]%string)),
     log1 ++ [EvConsoleError "Error during prediction:" (message e)]
          ++ [EvConsoleError "Prediction error:"
                "Error processing image for prediction."]).
Proof.
  intros lm req file log e log1 Hup Hbody.
  exact (processing_failure_run lm req log Hup Hbody).
Qed.

Lemma processing_failure_response_witness :
  post_predict None (Fixture.upload_of "scan.jpg" "image/jpeg" [x00]) [] =
  (Ok (mkResponse 500
         (JObject [("status", JString "fail");
                   ("message", JString "Terjadi kesalahan dalam melakukan prediksi");
                   ("error", JString "Error processing image for prediction.")]%string)),
   [EvJpegDecode [x00]]
     ++ [EvConsoleError "Error during prediction:" "SOI not found"]
     ++ [EvConsoleError "Prediction error:"
           "Error processing image for prediction."]).
Proof.
  apply (@processing_failure_response Fixture.packages None
           (Fixture.upload_of "scan.jpg" "image/jpeg" [x00])
           (mkFile "image" "scan.jpg" "image/jpeg" [x00])
           [] (mkError "SOI not found") [EvJpegDecode [x00]]).
  - reflexivity.
  - reflexivity.
Defined.

(** C3, as stated, fails: a buffer that [jpeg.decode] refuses with
    "SOI not found" gets an [error] field with the fixed text, not with
    that message. *)
Lemma error_field_is_not_cause : ~ error_field_is_cause.
Proof.
  intros H.
  destruct (H Fixture.packages None
              (Fixture.upload_of "scan.jpg" "image/jpeg" [x00])
              (mkFile "image" "scan.jpg" "image/jpeg" [x00])
              [] (mkError "SOI not found") [EvJpegDecode [x00]]
              eq_refl eq_refl)
    as (r & log2 & Hrun & _ & _ & Herr).
  vm_compute in Hrun. inversion Hrun; subst r. vm_compute in Herr.
  discriminate Herr.
Qed.

(** ** The start-up sequence *)

Section StartupFacts.
Context {P : Packages}.

Lemma reachable_listening : reachable listening_state.
Proof.
  apply reach_step with (p := initial); [apply reach_init |].
  apply (step_listen initial). reflexivity.
Qed.

Lemma load_calls_snoc : forall ph ph' m m' tr e,
  is_load_call e = false ->
  load_calls (mkProcess ph m (tr ++ [e])) = load_calls (mkProcess ph' m' tr).
Proof.
  intros ph ph' m m' tr e He. unfold load_calls; simpl.
  rewrite filter_app; simpl. rewrite He, app_nil_r. reflexivity.
Qed.

(** An event other than a call of [loadModel] leaves the count alone. *)
Ltac same_load_calls Hc :=
  rewrite <- Hc;
  match goal with
  | p : Process |- _ =>
      apply load_calls_snoc with (ph' := proc_phase p) (m' := loadedModel p);
      reflexivity
  end.

Lemma step_preserves_invariant : forall p q,
  step p q -> startup_invariant p -> startup_invariant q.
Proof.
  intros p q Hstep. unfold startup_invariant.
  destruct Hstep as [p Hph | p m Hph | p Hph | p req r log Hacc Hrun]; simpl.
  - rewrite Hph. intros [Hm Htr]. rewrite Htr. simpl. eauto.
  - rewrite Hph. intros (Hm & Hc & rest & Htr).
    split; [discriminate |]. split.
    + same_load_calls Hc.
    + rewrite Htr. simpl. eauto.
  - rewrite Hph. intros (Hm & Hc & rest & Htr).
    split; [reflexivity |]. split; [assumption |]. split.
    + same_load_calls Hc.
    + rewrite Htr. simpl. eauto.
  - unfold accepting in Hacc.
    destruct (proc_phase p) eqn:Hph; try discriminate;
      intros (Hm & Hc & rest & Htr); (split; [assumption |]); split.
    + same_load_calls Hc.
    + rewrite Htr. simpl. eauto.
    + same_load_calls Hc.
    + rewrite Htr. simpl. eauto.
Qed.

Lemma reachable_invariant : forall p, reachable p -> startup_invariant p.
Proof.
  intros p Hr. induction Hr as [| p q Hr IH Hstep].
  - unfold startup_invariant; simpl. auto.
  - eapply step_preserves_invariant; eassumption.
Qed.

Lemma exited_is_final : forall p q code,
  proc_phase p = Exited code -> ~ step p q.
Proof.
  intros p q code Hph Hstep.
  destruct Hstep as [p Hph' | p m Hph' | p Hph' | p req r log Hacc Hrun];
    try congruence.
  unfold accepting in Hacc. rewrite Hph in Hacc. discriminate.
Qed.

End StartupFacts.

(** C2, as the code has it. [loadModel] is entered exactly once per
    process, from the [app.listen] callback, so only after the server
    has begun to accept connections; the model variable is set exactly
    in the phase that follows a successful load; a load that fails ends
    the process with exit code 1, and an exited process takes no
    further step (no retry, no degraded mode). *)
Theorem load_once_after_listen {P : Packages} : forall p,
  reachable p ->
  load_calls p <= 1 /\
  (proc_phase p <> NotStarted ->
   load_calls p = 1 /\
   exists rest, trace p = PListening :: PLoadModelCalled :: rest) /\
  (loadedModel p <> None <-> proc_phase p = Ready) /\
  (proc_phase p = Loading ->
   step p (mkProcess (Exited 1) None (trace p ++ [PExit 1]))) /\
  (forall code, proc_phase p = Exited code ->
     code = 1 /\ loadedModel p = None /\ forall q, ~ step p q).
Proof.
  intros p Hr. pose proof (reachable_invariant Hr) as Hinv.
  unfold startup_invariant in Hinv. repeat split.
  - destruct (proc_phase p); unfold load_calls in *.
    + destruct Hinv as [_ ->]. simpl. lia.
    + destruct Hinv as (_ & -> & _). lia.
    + destruct Hinv as (_ & -> & _). lia.
    + destruct Hinv as (_ & _ & -> & _). lia.
  - destruct (proc_phase p); try contradiction; tauto.
  - destruct (proc_phase p); try contradiction; tauto.
  - destruct (proc_phase p); try reflexivity; intros Hm; exfalso; apply Hm; tauto.
  - intros Hph. rewrite Hph in Hinv. tauto.
  - intros Hph. rewrite Hph in Hinv. destruct Hinv as (Hm & _).
    rewrite <- Hm. apply step_load_fail. assumption.
  - rewrite H in Hinv. tauto.
  - rewrite H in Hinv. tauto.
  - intros q. eapply exited_is_final. eassumption.
Qed.

Lemma load_once_after_listen_witness :
  load_calls listening_state <= 1 /\
  (proc_phase listening_state <> NotStarted ->
   load_calls listening_state = 1 /\
   exists rest, trace listening_state = PListening :: PLoadModelCalled :: rest) /\
  (loadedModel listening_state <> None <-> proc_phase listening_state = Ready) /\
  (proc_phase listening_state = Loading ->
   @step Fixture.packages listening_state
     (mkProcess (Exited 1) None (trace listening_state ++ [PExit 1]))) /\
  (forall code, proc_phase listening_state = Exited code ->
     code = 1 /\ loadedModel listening_state = None /\
     forall q, ~ @step Fixture.packages listening_state q).
Proof.
  apply (@load_once_after_listen Fixture.packages listening_state).
  apply reach_step with (p := initial); [apply reach_init |].
  apply (step_listen initial). reflexivity.
Defined.

(** C2, as stated, fails: right after [app.listen] the server accepts
    connections while the model variable is still unset. *)
Lemma not_loaded_before_accepting : ~ loaded_before_accepting.
Proof.
  intros H.
  apply (H Fixture.packages listening_state).
  - apply reachable_listening.
  - reflexivity.
  - reflexivity.
Qed.

(** C9. While the server listens and the load is still pending the
    model variable is unset; an accepted upload that arrives then is
    answered at once with status 500 and status "fail" (not queued,
    not 503), the [TypeError] having been caught inside [predict] and
    replaced by the processing error; the process stays in the same
    phase and keeps accepting connections.  Such a state is reached by
    [app.listen] alone. *)
Theorem request_during_load {P : Packages} :
  (reachable listening_state /\ accepting listening_state = true /\
   proc_phase listening_state = Loading) /\
  (forall p req file,
     reachable p ->
     proc_phase p = Loading ->
     upload_single "image" req = Ok (Some file) ->
     loadedModel p = None /\
     exists cause log r,
       predict_body (loadedModel p) (buffer file) [] = (Throw cause, log) /\
       predict (loadedModel p) (buffer file) [] =
       (Throw (mkError "Error processing image for prediction."),
        log ++ [EvConsoleError "Error during prediction:" (message cause)]) /\
       r = mkResponse 500
             (JObject [("status", JString "fail");
                       ("message", JString "Terjadi kesalahan dalam melakukan prediksi");
                       ("error", JString "Error processing image for prediction.")]%string) /\
       fst (post_predict (loadedModel p) req []) = Ok r /\
       status r <> 503 /\
       let q := mkProcess (proc_phase p) (loadedModel p) (trace p ++ [PResponse r]) in
       step p q /\ reachable q /\ accepting q = true /\ proc_phase q = Loading).
Proof.
  split.
  - split; [apply reachable_listening | split; reflexivity].
  - intros p req file Hr Hph Hup.
    pose proof (reachable_invariant Hr) as Hinv.
    unfold startup_invariant in Hinv. rewrite Hph in Hinv.
    destruct Hinv as (Hm & _). split; [assumption |].
    rewrite Hm.
    destruct (predict_body_no_model (buffer file) []) as (cause & log & Hbody).
    exists cause, log. eexists.
    split; [exact Hbody |].
    split; [rewrite predict_run, Hbody; reflexivity |].
    split; [reflexivity |].
    pose proof (processing_failure_run None req [] Hup Hbody) as Hrun.
    split; [rewrite Hrun; reflexivity |].
    split; [simpl; lia |].
    cbv zeta.
    assert (Hstep : step p (mkProcess (proc_phase p) (loadedModel p)
                      (trace p ++ [PResponse (mkResponse 500 (error_body generic_error))]))).
    { eapply step_request.
      - unfold accepting. rewrite Hph. reflexivity.
      - rewrite Hm. exact Hrun. }
    rewrite Hm in Hstep.
    split; [exact Hstep |].
    split; [eapply reach_step; eassumption |].
    rewrite Hph. split; reflexivity.
Qed.

Lemma request_during_load_witness :
  loadedModel listening_state = None /\
  exists cause log r,
    predict_body (loadedModel listening_state) Fixture.red_jpeg [] =
    (Throw cause, log) /\
    predict (loadedModel listening_state) Fixture.red_jpeg [] =
    (Throw (mkError "Error processing image for prediction."),
     log ++ [EvConsoleError "Error during prediction:" (message cause)]) /\
    r = mkResponse 500
          (JObject [("status", JString "fail");
                    ("message", JString "Terjadi kesalahan dalam melakukan prediksi");
                    ("error", JString "Error processing image for prediction.")]%string) /\
    fst (post_predict (loadedModel listening_state)
           (Fixture.upload_of "scan.jpg" "image/jpeg" Fixture.red_jpeg) []) = Ok r /\
    status r <> 503 /\
    let q := mkProcess (proc_phase listening_state) (loadedModel listening_state)
               (trace listening_state ++ [PResponse r]) in
    step listening_state q /\ reachable q /\ accepting q = true /\
    proc_phase q = Loading.
Proof.
  apply (proj2 (@request_during_load Fixture.packages) listening_state
           (Fixture.upload_of "scan.jpg" "image/jpeg" Fixture.red_jpeg)
           (mkFile "image" "scan.jpg" "image/jpeg" Fixture.red_jpeg)).
  - apply reach_step with (p := initial); [apply reach_init |].
    apply (step_listen initial). reflexivity.
  - reflexivity.
  - reflexivity.
Defined.

(** ** Tensor arithmetic *)

Lemma Zpos_of_nat : forall n, 0 < n -> Z.pos (Pos.of_nat n) = Z.of_nat n.
Proof.
  intros n Hn. rewrite <- positive_nat_Z, Nat2Pos.id by lia. reflexivity.
Qed.






Lemma flat_map_length_const : forall (A B : Type) (f : A -> list B) m l,
  (forall x, In x l -> List.length (f x) = m) ->
  List.length (flat_map f l) = List.length l * m.
Proof.
  intros A B f m l. induction l as [| a l IH]; intros H; simpl.
  - reflexivity.
  - rewrite length_app, H by (left; reflexivity).
    rewrite IH by (intros x Hx; apply H; right; exact Hx). reflexivity.
Qed.







Lemma js_div_dimension : forall a b c,
  as_dimension (js_div a b) = Some c -> 0 < b /\ a = b * c.
Proof.
  intros a b c. destruct b as [| b'].
  - destruct a; discriminate.
  - unfold js_div, as_dimension.
    set (q := (Z.of_nat a # Pos.of_nat (S b'))%Q).
    pose proof (Qred_correct (Qred q)) as H1. pose proof (Qred_correct q) as H2.
    destruct (Qred (Qred q)) as [n d]. cbn [Qnum Qden].
    destruct (Pos.eqb_spec d 1) as [-> |]; [| discriminate].
    destruct (Z.leb_spec 0 n) as [Hn |]; [| discriminate].
    cbn [andb]. intros Hc. inversion Hc; subst c. clear Hc.
    split; [lia |].
    rewrite H2 in H1. unfold Qeq, q in H1. cbn [Qnum Qden] in H1.
    rewrite Zpos_of_nat in H1 by lia. nia.
Qed.

Lemma js_div_exact : forall b c,
  0 < b -> as_dimension (js_div (b * c) b) = Some c /\ (b * c) / b = c.
Proof.
  intros b c Hb. split.
  - destruct b as [| b']; [lia |]. unfold js_div.
    replace (Qred (Z.of_nat (S b' * c) # Pos.of_nat (S b')))
      with (inject_Z (Z.of_nat c)).
    + apply as_dimension_nat.
    + rewrite <- (Qred_integer (Z.of_nat c)). apply Qred_complete.
      unfold Qeq, inject_Z. cbn [Qnum Qden].
      rewrite Zpos_of_nat by lia. lia.
  - rewrite Nat.mul_comm. apply Nat.div_mul. lia.
Qed.

(** C6. On the JPEG path a tensor that gets built has, as its channel
    count, the integer quotient of the number of samples by
    [width * height] (the division is then exact); and when the
    decoder delivers 3 or 4 samples per pixel the tensor is built and
    has that many channels. *)
Theorem jpeg_channel_count {P : Packages} : forall buf img,
  jpeg_decode buf = Ok img ->
  (forall log t,
     fst (decode_jpeg buf log) = Ok t ->
     0 < width img * height img /\
     List.length (data img) mod (width img * height img) = 0 /\
     shape3 t =
     (height img, width img,
      List.length (data img) / (width img * height img))) /\
  (forall c,
     c = 3 \/ c = 4 ->
     0 < width img * height img ->
     List.length (data img) = width img * height img * c ->
     forall log,
     exists t,
       decode_jpeg buf log = (Ok t, log ++ [EvJpegDecode buf]) /\
       shape3 t = (height img, width img, c) /\
       c = List.length (data img) / (width img * height img)).
Proof.
  intros buf img Hdec. split.
  - intros log t. rewrite decode_jpeg_run, Hdec. cbn [fst].
    intros Ht. apply tensor3d_shape in Ht.
    destruct Ht as (h & w & c & Hh & Hw & Hc & _ & ->).
    rewrite as_dimension_nat in Hh, Hw. inversion Hh; inversion Hw; subst h w.
    apply js_div_dimension in Hc. destruct Hc as [Hpos Hlen].
    split; [exact Hpos |]. rewrite Hlen. split.
    + rewrite Nat.mul_comm. apply Nat.Div0.mod_mul.
    + cbn [shape3]. rewrite (Nat.mul_comm (width img * height img) c).
      rewrite Nat.div_mul by lia. reflexivity.
  - intros c Hc Hpos Hlen log. rewrite decode_jpeg_run, Hdec, Hlen.
    destruct (@js_div_exact (width img * height img) c Hpos) as [Hdim Hq].
    unfold tf_tensor3d. rewrite !as_dimension_nat, Hdim.
    assert (Hsize : height img * width img * c = width img * height img * c) by lia.
    rewrite <- Hlen, (proj2 (Nat.eqb_eq _ _)) by (rewrite Hlen; exact Hsize).
    eexists. split; [reflexivity |]. split; [reflexivity |].
    rewrite Hlen. symmetry. exact Hq.
Qed.

Lemma jpeg_channel_count_witness :
  (forall log t,
     fst (decode_jpeg Fixture.red_jpeg log) = Ok t ->
     0 < 1 * 1 /\
     4 mod (1 * 1) = 0 /\
     shape3 t = (1, 1, 4 / (1 * 1))) /\
  (forall c,
     c = 3 \/ c = 4 ->
     0 < 1 * 1 ->
     4 = 1 * 1 * c ->
     forall log,
     exists t,
       decode_jpeg Fixture.red_jpeg log =
       (Ok t, log ++ [EvJpegDecode Fixture.red_jpeg]) /\
       shape3 t = (1, 1, c) /\
       c = 4 / (1 * 1)).
Proof.
  apply (@jpeg_channel_count Fixture.packages Fixture.red_jpeg
           (mkImage 1 1 [xff; x00; x00; xff])).
  reflexivity.
Defined.

(** ** The kernel against the specification of bilinear resampling *)

(** The specification on the 2 x 2 ramp resized to 4 x 4. *)
Example bilinear_spec_ramp :
  map (fun rc => Qred (bilinear_spec
                         (mkTensor3D (2, 2, 1) int32
                            [Some 0%Q; Some 10%Q; Some 20%Q; Some 30%Q])
                         4 4 (fst rc) (snd rc) 0))
    [(0, 0); (0, 1); (0, 2); (0, 3); (1, 0); (1, 1); (1, 2); (1, 3);
     (2, 0); (2, 1); (2, 2); (2, 3); (3, 0); (3, 1); (3, 2); (3, 3)] =
  [0; 5; 10; 10; 10; 15; 20; 20; 20; 25; 30; 30; 20; 25; 30; 30]%Q.
Proof. vm_compute. reflexivity. Qed.









Lemma read_sample_nat : forall xs n,
  read_sample xs (Z.of_nat n) = nth n xs None.
Proof.
  intros xs n. unfold read_sample.
  destruct (Z.ltb_spec (Z.of_nat n) 0); [lia |]. rewrite Nat2Z.id. reflexivity.
Qed.



Lemma slice_alpha_values : forall x h w,
  shape3 x = (h, w, 4) ->
  tf_slice x (0, 0, 0) (-1, -1, 3)%Z =
  Ok (mkTensor3D (h, w, 3) (dtype3 x)
        (flat_map (fun i =>
           flat_map (fun j =>
             map (fun k => read_sample (values3 x)
                             (Z.of_nat ((i * w + j) * 4 + k)))
                 (seq 0 3))
             (seq 0 w))
           (seq 0 h))).
Proof.
  intros x h w Hs. unfold tf_slice. rewrite Hs.
  change (slice_extent h 0 (-1)) with (Some (h - 0)).
  change (slice_extent w 0 (-1)) with (Some (w - 0)).
  change (slice_extent 4 0 3) with (Some 3).
  cbv iota beta. rewrite !Nat.sub_0_r. change (0 + h) with h. change (0 + w) with w.
  rewrite !Nat.leb_refl. reflexivity.
Qed.




Section DecodedTensor.
Context {P : Packages}.


End DecodedTensor.




(* ================================================================= *)
(** * Further properties of the code *)

(** ** Further facts about the pipeline *)

Section PipelineFacts.
Context {P : Packages}.

(** The decode step adds exactly the selected decoder's call to the
    log, whatever it returns. *)
Lemma decode_input_log : forall buf log,
  snd (decode_input buf log) = log ++ [decoder_event buf].
Proof.
  intros buf log. unfold decode_input, decoder_event.
  destruct (is_png_header buf).
  - rewrite decode_png_run. reflexivity.
  - rewrite decode_jpeg_run. reflexivity.
Qed.

(** What the decode step returns does not depend on the log. *)
Lemma decode_input_result : forall buf log,
  fst (decode_input buf log) = fst (decode_input buf []).
Proof.
  intros buf log. unfold decode_input.
  destruct (is_png_header buf).
  - rewrite !decode_png_run. reflexivity.
  - rewrite !decode_jpeg_run. reflexivity.
Qed.

(** The slice of line 64 is always within bounds. *)
Lemma drop_alpha_total : forall t,
  exists rgb,
    drop_alpha t = Ok rgb /\
    shape3 rgb =
    (fst (fst (shape3 t)), snd (fst (shape3 t)),
     if Nat.eqb (snd (shape3 t)) 4 then 3 else snd (shape3 t)).
Proof.
  intros t. unfold drop_alpha.
  destruct (shape3 t) as [[h w] c] eqn:Hs. cbn [fst snd].
  destruct (Nat.eqb_spec c 4) as [-> | Hne].
  - unfold tf_slice. rewrite Hs.
    cbn [slice_extent Z.leb Z.compare Z.eqb Z.to_nat Pos.to_nat Pos.iter_op Nat.add Pos.eqb].
    rewrite !Nat.sub_0_r. cbn [Nat.add].
    rewrite !Nat.leb_refl. cbn [andb Nat.leb].
    eexists. split; reflexivity.
  - exists t. split; [reflexivity | exact Hs].
Qed.

Lemma resize_shape_length : forall x nh nw,
  shape3 (tf_image_resizeBilinear x (nh, nw)) = (nh, nw, snd (shape3 x)) /\
  dtype3 (tf_image_resizeBilinear x (nh, nw)) = float32 /\
  List.length (values3 (tf_image_resizeBilinear x (nh, nw))) =
  nh * nw * snd (shape3 x).
Proof.
  intros x nh nw. unfold tf_image_resizeBilinear.
  destruct (shape3 x) as [[h w] c]. cbn [shape3 dtype3 values3 snd].
  split; [reflexivity |]. split; [reflexivity |].
  rewrite flat_map_length_const with (m := nw * c).
  - rewrite length_seq. lia.
  - intros r _. destruct (source_coord h nh r) as [[rlo rfr] rhi].
    rewrite flat_map_length_const with (m := c).
    + rewrite length_seq. reflexivity.
    + intros j _. destruct (source_coord w nw j) as [[clo cfr] chi].
      rewrite length_map, length_seq. reflexivity.
Qed.

End PipelineFacts.

Lemma preprocess_total_shape : forall t,
  exists out,
    preprocess t = Ok out /\
    shape4 out =
    (1, 224, 224, if Nat.eqb (snd (shape3 t)) 4 then 3 else snd (shape3 t)) /\
    dtype4 out = float32 /\
    List.length (values4 out) =
    224 * 224 * (if Nat.eqb (snd (shape3 t)) 4 then 3 else snd (shape3 t)).
Proof.
  intros t. destruct (drop_alpha_total t) as (rgb & Hdrop & Hshape).
  unfold preprocess. rewrite Hdrop. eexists. split; [reflexivity |].
  destruct (resize_shape_length rgb 224 224) as (Hs & Hd & Hl).
  rewrite Hshape in Hs, Hl. cbn [snd] in Hs, Hl.
  unfold resize_normalise, tf_div, toFloat, expandDims0. rewrite Hs.
  cbn [shape4 dtype4 values4].
  split; [reflexivity |]. split; [reflexivity |].
  rewrite length_map. exact Hl.
Qed.

(** X1. Preprocessing never fails, whatever tensor it is given: the
    slice of line 64 is always within bounds, a tensor that does not
    have 4 channels is passed on as it is, and the result is a float32
    tensor of shape [1, 224, 224, k] with 224 * 224 * k samples. *)
Theorem preprocess_never_fails : forall t,
  exists rgb out,
    drop_alpha t = Ok rgb /\
    (snd (shape3 t) <> 4 -> rgb = t) /\
    preprocess t = Ok out /\
    out = tf_div (toFloat (expandDims0 (tf_image_resizeBilinear rgb (224, 224))))
            255 /\
    shape4 out =
    (1, 224, 224, if Nat.eqb (snd (shape3 t)) 4 then 3 else snd (shape3 t)) /\
    dtype4 out = float32 /\
    List.length (values4 out) =
    224 * 224 * (if Nat.eqb (snd (shape3 t)) 4 then 3 else snd (shape3 t)).
Proof.
  intros t. destruct (drop_alpha_total t) as (rgb & Hdrop & Hshape).
  destruct (preprocess_total_shape t) as (out & Hpre & Hs & Hd & Hl).
  exists rgb, out. split; [exact Hdrop |]. split.
  - intros Hne. unfold drop_alpha in Hdrop.
    destruct (Nat.eqb_spec (snd (shape3 t)) 4) as [He | _]; [contradiction |].
    inversion Hdrop. reflexivity.
  - split; [exact Hpre |]. split; [| auto].
    unfold preprocess in Hpre. rewrite Hdrop in Hpre.
    inversion Hpre. reflexivity.
Qed.

Section BodyFacts.
Context {P : Packages}.

(** The [try] block of [predict], case by case. *)
Lemma predict_body_run : forall lm buf log,
  predict_body lm buf log =
  match fst (decode_input buf []) with
  | Throw e => (Throw e, log ++ [decoder_event buf])
  | Ok t =>
      match preprocess t with
      | Throw e => (Throw e, log ++ [decoder_event buf])
      | Ok u =>
          match lm with
          | None =>
              (Throw (mkError "Cannot read properties of undefined (reading 'predict')"),
               log ++ [decoder_event buf])
          | Some m =>
              (match predict_data m u with
               | Ok ps => Ok (label_of ps)
               | Throw e => Throw e
               end,
               log ++ [decoder_event buf; EvModelPredict])
          end
      end
  end.
Proof.
  intros lm buf log. unfold predict_body, bind.
  pose proof (decode_input_log buf log) as Hl.
  pose proof (decode_input_result buf log) as Hr.
  destruct (decode_input buf log) as [r l1]. cbn [fst snd] in Hl, Hr.
  subst l1. rewrite <- Hr.
  destruct r as [t | e]; [| reflexivity].
  unfold lift. destruct (preprocess t) as [u | e]; [| reflexivity].
  destruct lm as [m |]; [| reflexivity].
  unfold model_predict, call, ret.
  rewrite <- app_assoc. cbn [app].
  destruct (predict_data m u); reflexivity.
Qed.

End BodyFacts.

(** X4. When the selected decoder or the tensor constructor throws,
    [predict] logs that error's message, throws the fixed processing
    error, tries no other decoder and never calls the model. *)
Theorem decode_failure_stops {P : Packages} : forall lm buf log e,
  fst (decode_input buf log) = Throw e ->
  predict lm buf log =
  (Throw (mkError "Error processing image for prediction."),
   log ++ [if is_png_header buf then EvPngRead buf else EvJpegDecode buf;
           EvConsoleError "Error during prediction:" (message e)]).
Proof.
  intros lm buf log e He. rewrite decode_input_result in He.
  rewrite predict_run, predict_body_run, He.
  rewrite <- app_assoc. reflexivity.
Qed.

Lemma decode_failure_stops_witness :
  predict (Some (Fixture.constant_model 0.75)) [x89; x50; x4e; x47] [] =
  (Throw (mkError "Error processing image for prediction."),
   [] ++ [if is_png_header [x89; x50; x4e; x47]
          then EvPngRead [x89; x50; x4e; x47]
          else EvJpegDecode [x89; x50; x4e; x47];
          EvConsoleError "Error during prediction:"
            (message (mkError "Invalid file signature"))]).
Proof.
  apply (@decode_failure_stops Fixture.packages
           (Some (Fixture.constant_model 0.75)) [x89; x50; x4e; x47] []
           (mkError "Invalid file signature")).
  reflexivity.
Defined.

(** X2. On the JPEG path a tensor is built exactly when [jpeg.decode]
    returns, the image area [width * height] is not zero and it divides
    the number of samples; a zero area or a remainder makes line 59
    throw. *)
Theorem decode_jpeg_succeeds_iff {P : Packages} : forall buf log,
  (exists t, fst (decode_jpeg buf log) = Ok t) <->
  (exists img,
     jpeg_decode buf = Ok img /\
     0 < width img * height img /\
     List.length (data img) mod (width img * height img) = 0).
Proof.
  intros buf log. rewrite decode_jpeg_run. cbn [fst]. split.
  - intros [t Ht]. destruct (jpeg_decode buf) as [img | e]; [| discriminate].
    exists img. split; [reflexivity |].
    apply tensor3d_shape in Ht.
    destruct Ht as (h & w & c & _ & _ & Hc & _ & _).
    apply js_div_dimension in Hc. destruct Hc as [Hpos Hlen].
    split; [exact Hpos |]. rewrite Hlen, Nat.mul_comm. apply Nat.Div0.mod_mul.
  - intros (img & -> & Hpos & Hmod).
    apply Nat.Div0.div_exact in Hmod.
    set (c := List.length (data img) / (width img * height img)) in *.
    destruct (@js_div_exact (width img * height img) c Hpos) as [Hdim _].
    unfold tf_tensor3d. rewrite !as_dimension_nat, Hmod, Hdim.
    assert (Hsize : height img * width img * c = width img * height img * c) by lia.
    rewrite (proj2 (Nat.eqb_eq _ _) Hsize). eexists. reflexivity.
Qed.

(** X3. On the PNG path a tensor is built exactly when
    [pngjs.sync.read] returns and its data holds four samples for each
    of the [height * width] pixels. *)
Theorem decode_png_succeeds_iff {P : Packages} : forall buf log,
  (exists t, fst (decode_png buf log) = Ok t) <->
  (exists png,
     pngjs_sync_read buf = Ok png /\
     List.length (data png) = height png * width png * 4).
Proof.
  intros buf log. rewrite decode_png_run. cbn [fst]. split.
  - intros [t Ht]. destruct (pngjs_sync_read buf) as [png | e]; [| discriminate].
    exists png. split; [reflexivity |].
    apply tensor3d_shape in Ht.
    destruct Ht as (h & w & c & Hh & Hw & Hc & Hlen & _).
    rewrite as_dimension_nat in Hh, Hw, Hc.
    inversion Hh; inversion Hw; inversion Hc; subst. symmetry. exact Hlen.
  - intros (png & -> & Hlen).
    rewrite tensor3d_ok by (symmetry; exact Hlen). eexists. reflexivity.
Qed.

(** X6. When the [try] block of [predict] yields a label for an
    accepted upload, the answer is status 200 with the success
    envelope: the drawn id and timestamp, the label, and the suggestion
    that belongs to it; exactly one decoder call and one model call
    were logged; and the label is "Cancer" or "Non-cancer" according to
    whether the first prediction exceeds 0.5. *)
Theorem success_response {P : Packages} :
  forall lm req file log label log1,
    upload_single "image" req = Ok (Some file) ->
    predict_body lm (buffer file) log = (Ok label, log1) ->
    post_predict lm req log =
    (Ok (mkResponse 200
           (JObject
              [("status", JString "success");
               ("message", JString "Prediction completed successfully");
               ("data",
                JObject
                  [("id", JString (fresh_uuid req));
                   ("result", JString label);
                   ("suggestion",
                    JString (if String.eqb label "Cancer"
                             then "Segera periksa ke dokter!"
                             else "Penyakit kanker tidak terdeteksi."));
                   ("createdAt", JString (now_iso req))])]%string)),
     log1) /\
    log1 = log ++ [decoder_event (buffer file); EvModelPredict] /\
    exists m tensor predictions,
      lm = Some m /\ predict_data m tensor = Ok predictions /\
      (label = "Cancer"%string /\
       js_gt (nth_error predictions 0) 0.5 = true \/
       label = "Non-cancer"%string /\
       js_gt (nth_error predictions 0) 0.5 = false).
Proof.
  intros lm req file log label log1 Hup Hbody. split; [| split].
  - unfold post_predict. rewrite Hup, handler_run_file, predict_run, Hbody.
    reflexivity.
  - rewrite predict_body_run in Hbody.
    destruct (fst (decode_input (buffer file) [])) as [t | e]; [| discriminate].
    destruct (preprocess t) as [u | e]; [| discriminate].
    destruct lm as [m |]; [| discriminate].
    inversion Hbody; reflexivity.
  - destruct (predict_body_ok_inv _ _ _ Hbody) as (m & u & ps & Hm & Hp & Hl).
    exists m, u, ps. split; [exact Hm |]. split; [exact Hp |].
    subst label. unfold label_of.
    destruct (js_gt (nth_error ps 0) 0.5); auto.
Qed.

Lemma success_response_witness :
  post_predict (Some (Fixture.constant_model 0.75))
    (Fixture.upload_of "scan.jpg" "image/jpeg" Fixture.red_jpeg) [] =
  (Ok (mkResponse 200
         (JObject
            [("status", JString "success");
             ("message", JString "Prediction completed successfully");
             ("data",
              JObject
                [("id", JString "00000000-0000-4000-8000-000000000000");
                 ("result", JString "Cancer");
                 ("suggestion",
                  JString (if String.eqb "Cancer" "Cancer"
                           then "Segera periksa ke dokter!"
                           else "Penyakit kanker tidak terdeteksi."));
                 ("createdAt", JString "2024-01-01T00:00:00.000Z")])]%string)),
   [EvJpegDecode Fixture.red_jpeg; EvModelPredict]) /\
  [EvJpegDecode Fixture.red_jpeg; EvModelPredict] =
  [] ++ [decoder_event Fixture.red_jpeg; EvModelPredict] /\
  exists m tensor predictions,
    Some (Fixture.constant_model 0.75) = Some m /\
    predict_data m tensor = Ok predictions /\
    ("Cancer"%string = "Cancer"%string /\
     js_gt (nth_error predictions 0) 0.5 = true \/
     "Cancer"%string = "Non-cancer"%string /\
     js_gt (nth_error predictions 0) 0.5 = false).
Proof.
  apply (@success_response Fixture.packages
           (Some (Fixture.constant_model 0.75))
           (Fixture.upload_of "scan.jpg" "image/jpeg" Fixture.red_jpeg)
           (mkFile "image" "scan.jpg" "image/jpeg" Fixture.red_jpeg)
           [] "Cancer"%string [EvJpegDecode Fixture.red_jpeg; EvModelPredict]).
  - reflexivity.
  - vm_compute. reflexivity.
Defined.

(** X7. Every [POST /predict] is answered, and with one of three
    envelopes only: 200 with the success body for one of the two
    labels, 400 with a fail body, or 500 with the fixed processing
    error text. *)
Theorem response_envelopes {P : Packages} : forall lm req log,
  exists r log',
    post_predict lm req log = (Ok r, log') /\
    ((exists label,
        (label = "Cancer"%string \/ label = "Non-cancer"%string) /\
        r = mkResponse 200 (success_body req label)) \/
     (exists msg, r = mkResponse 400 (fail_body msg)) \/
     r = mkResponse 500 (error_body generic_error)).
Proof.
  intros lm req log. unfold post_predict.
  destruct (upload_single "image" req) as [[file |] | err].
  - rewrite handler_run_file, predict_run.
    destruct (predict_body lm (buffer file) log) as [[l | e] log1] eqn:Hb.
    + eexists; eexists. split; [reflexivity |]. left. exists l. split; [| reflexivity].
      destruct (predict_body_ok_inv _ _ _ Hb) as (m & u & ps & _ & _ & ->).
      unfold label_of. destruct (js_gt (nth_error ps 0) 0.5); auto.
    + eexists; eexists. split; [reflexivity |]. right; right. reflexivity.
  - rewrite handler_run_nofile. eexists; eexists. split; [reflexivity |].
    right; left. eexists; reflexivity.
  - rewrite error_middleware_run. eexists; eexists. split; [reflexivity |].
    right; left. eexists; reflexivity.
Qed.

(** X8. The status tells what happened: 400 exactly when multer
    passed on no file (it refused the upload or there was none), 500
    exactly when a file was accepted and the [try] block of [predict]
    threw, 200 exactly when a file was accepted and the block returned
    a label. *)
Theorem status_classification {P : Packages} : forall lm req log r log',
  post_predict lm req log = (Ok r, log') ->
  (status r = 400 <->
   forall file, upload_single "image" req <> Ok (Some file)) /\
  (status r = 500 <->
   exists file e log1,
     upload_single "image" req = Ok (Some file) /\
     predict_body lm (buffer file) log = (Throw e, log1)) /\
  (status r = 200 <->
   exists file label log1,
     upload_single "image" req = Ok (Some file) /\
     predict_body lm (buffer file) log = (Ok label, log1)).
Proof.
  intros lm req log r log'. unfold post_predict.
  destruct (upload_single "image" req) as [[file |] | err] eqn:Hup.
  - rewrite handler_run_file, predict_run.
    destruct (predict_body lm (buffer file) log) as [[l | e] log1] eqn:Hb;
      intros H; inversion H; subst r log'; clear H; cbn [status].
    + split; [| split].
      * split; [discriminate |]. intros Hn. exfalso. apply (Hn file). reflexivity.
      * split; [discriminate |].
        intros (f & e & l1 & Hf & He). inversion Hf; subst f. congruence.
      * split; [| reflexivity]. intros _. exists file, l, log1. auto.
    + split; [| split].
      * split; [discriminate |]. intros Hn. exfalso. apply (Hn file). reflexivity.
      * split; [| reflexivity]. intros _. exists file, e, log1. auto.
      * split; [discriminate |].
        intros (f & l & l1 & Hf & Hl). inversion Hf; subst f. congruence.
  - rewrite handler_run_nofile. intros H; inversion H; subst r log'; clear H.
    cbn [status]. split; [| split].
    + split; [| reflexivity]. intros _ file. discriminate.
    + split; [discriminate |]. intros (f & e & l1 & Hf & _). discriminate.
    + split; [discriminate |]. intros (f & l & l1 & Hf & _). discriminate.
  - rewrite error_middleware_run. intros H; inversion H; subst r log'; clear H.
    cbn [status]. split; [| split].
    + split; [| reflexivity]. intros _ file. discriminate.
    + split; [discriminate |]. intros (f & e & l1 & Hf & _). discriminate.
    + split; [discriminate |]. intros (f & l & l1 & Hf & _). discriminate.
Qed.

Lemma decoder_event_is_decoder_call : forall buf,
  is_decoder_call (decoder_event buf) = true.
Proof. intros buf. unfold decoder_event. destruct (is_png_header buf); reflexivity. Qed.

Lemma decoder_event_not_model_call : forall buf,
  is_model_call (decoder_event buf) = false.
Proof. intros buf. unfold decoder_event. destruct (is_png_header buf); reflexivity. Qed.

(** X9. Handling one request only appends to the log; it calls at
    most one decoder and the model at most once, the model never
    unless a decoder was called; a 400 answer involves no decoder
    call; and the model is called only for an accepted file that
    decoded, with the model variable set. *)
Theorem call_discipline {P : Packages} : forall lm req log,
  exists suffix,
    snd (post_predict lm req log) = log ++ suffix /\
    count_events is_decoder_call suffix <= 1 /\
    count_events is_model_call suffix <= count_events is_decoder_call suffix /\
    (forall r, fst (post_predict lm req log) = Ok r -> status r = 400 ->
       count_events is_decoder_call suffix = 0) /\
    (count_events is_model_call suffix = 1 ->
     exists file t,
       upload_single "image" req = Ok (Some file) /\
       fst (decode_input (buffer file) log) = Ok t /\
       lm <> None).
Proof.
  intros lm req log. unfold post_predict.
  destruct (upload_single "image" req) as [[file |] | err] eqn:Hup.
  - rewrite handler_run_file, predict_run, predict_body_run.
    pose proof (decoder_event_is_decoder_call (buffer file)) as Hd.
    pose proof (decoder_event_not_model_call (buffer file)) as Hm.
    destruct (fst (decode_input (buffer file) [])) as [t | e] eqn:Hdec.
    + destruct (preprocess t) as [u | e].
      * destruct lm as [m |].
        -- destruct (predict_data m u) as [ps | e]; cbn [fst snd].
           ++ exists [decoder_event (buffer file); EvModelPredict].
              unfold count_events. cbn [filter is_model_call].
              rewrite Hd, Hm. cbn [List.length is_decoder_call].
              repeat split; try lia; try reflexivity.
              ** intros r Hr. inversion Hr; subst r. cbn [status]. discriminate.
              ** intros _. exists file, t. split; [reflexivity |].
                 split; [rewrite decode_input_result; exact Hdec | discriminate].
           ++ exists ([decoder_event (buffer file); EvModelPredict]
                      ++ [EvConsoleError "Error during prediction:" (message e)]
                      ++ [EvConsoleError "Prediction error:" (message generic_error)]).
              rewrite <- !app_assoc.
              unfold count_events. cbn [filter is_model_call app].
              rewrite Hd, Hm. cbn [List.length is_decoder_call is_model_call filter].
              repeat split; try lia; try reflexivity.
              ** intros r Hr. inversion Hr; subst r. cbn [status]. discriminate.
              ** intros _. exists file, t. split; [reflexivity |].
                 split; [rewrite decode_input_result; exact Hdec | discriminate].
        -- cbn [fst snd].
           exists ([decoder_event (buffer file)]
                   ++ [EvConsoleError "Error during prediction:"
                         "Cannot read properties of undefined (reading 'predict')"]
                   ++ [EvConsoleError "Prediction error:" (message generic_error)]).
           rewrite <- !app_assoc.
           unfold count_events. cbn [filter app].
           rewrite Hd, Hm. cbn [List.length is_decoder_call is_model_call filter].
           repeat split; try lia; try reflexivity; try discriminate.
           intros r Hr. inversion Hr; subst r. cbn [status]. discriminate.
      * cbn [fst snd].
        exists ([decoder_event (buffer file)]
                ++ [EvConsoleError "Error during prediction:" (message e)]
                ++ [EvConsoleError "Prediction error:" (message generic_error)]).
        rewrite <- !app_assoc.
        unfold count_events. cbn [filter app].
        rewrite Hd, Hm. cbn [List.length is_decoder_call is_model_call filter].
        repeat split; try lia; try reflexivity; try discriminate.
        intros r Hr. inversion Hr; subst r. cbn [status]. discriminate.
    + cbn [fst snd].
      exists ([decoder_event (buffer file)]
              ++ [EvConsoleError "Error during prediction:" (message e)]
              ++ [EvConsoleError "Prediction error:" (message generic_error)]).
      rewrite <- !app_assoc.
      unfold count_events. cbn [filter app].
      rewrite Hd, Hm. cbn [List.length is_decoder_call is_model_call filter].
      repeat split; try lia; try reflexivity; try discriminate.
      intros r Hr. inversion Hr; subst r. cbn [status]. discriminate.
  - rewrite handler_run_nofile. cbn [fst snd]. exists [].
    rewrite app_nil_r. unfold count_events. cbn.
    repeat split; try lia; try reflexivity; discriminate.
  - rewrite error_middleware_run. cbn [fst snd].
    exists [EvConsoleError "Error:" (message err)].
    unfold count_events. cbn.
    repeat split; try lia; try reflexivity; discriminate.
Qed.

(** X10. multer hands a file to the handler exactly when it was sent
    in the [image] field, its MIME type starts with "image/", its
    lower-cased extension is .jpg, .jpeg or .png and it has fewer than
    1,000,000 bytes; it hands over no file (without an error) exactly
    when the request carries no file part. *)
Theorem upload_accepted_iff {P : Packages} : forall req,
  (forall file,
     upload_single "image" req = Ok (Some file) <->
     file_part req = Some file /\
     fieldname file = "image"%string /\
     startsWith (mimetype file) "image/" = true /\
     includes [".jpg"; ".jpeg"; ".png"]%string
       (toLowerCase (path_extname (originalname file))) = true /\
     (N.of_nat (List.length (buffer file)) < 1000000)%N) /\
  (upload_single "image" req = Ok None <-> file_part req = None).
Proof.
  intros req. split.
  - intros file. split.
    + intros H.
      destruct (file_part req) as [f |] eqn:Hpart;
        [| unfold upload_single in H; rewrite Hpart in H; discriminate].
      destruct (String.eqb_spec (fieldname f) "image") as [Hfield | Hne];
        [| unfold upload_single in H; rewrite Hpart in H;
           rewrite (proj2 (String.eqb_neq _ _) Hne) in H; discriminate].
      rewrite (upload_single_image req Hpart Hfield) in H.
      destruct (startsWith (mimetype f) "image/") eqn:Hm; cbn [negb] in H;
        [| discriminate].
      destruct (includes [".jpg"; ".jpeg"; ".png"]%string
                  (toLowerCase (path_extname (originalname f)))) eqn:He;
        cbn [negb] in H; [| discriminate].
      destruct (N.leb_spec fileSize_limit (N.of_nat (List.length (buffer f))))
        as [Hle | Hlt]; [discriminate |].
      inversion H; subst file. unfold fileSize_limit in Hlt. auto.
    + intros (Hpart & Hfield & Hm & He & Hsz).
      rewrite (upload_single_image req Hpart Hfield), Hm, He. cbn [negb].
      unfold fileSize_limit.
      destruct (N.leb_spec 1000000 (N.of_nat (List.length (buffer file))));
        [lia | reflexivity].
  - split.
    + intros H. unfold upload_single in H.
      destruct (file_part req) as [f |]; [| reflexivity].
      destruct (negb (String.eqb (fieldname f) "image")); [discriminate |].
      unfold fileFilter in H.
      destruct (negb (startsWith (mimetype f) "image/")); [discriminate |].
      destruct (negb (includes [".jpg"; ".jpeg"; ".png"]%string
                        (toLowerCase (path_extname (originalname f)))));
        [discriminate |].
      destruct (fileSize_limit <=? N.of_nat (List.length (buffer f)))%N;
        discriminate.
    + intros H. unfold upload_single. rewrite H. reflexivity.
Qed.

(** X11. Once two uploads are accepted, their declared MIME type and
    file name play no further role: with the same bytes (and the same
    id and timestamp drawn) they get the same answer and the same
    log. *)
Theorem declared_type_irrelevant {P : Packages} :
  forall lm req1 req2 file1 file2 log,
    upload_single "image" req1 = Ok (Some file1) ->
    upload_single "image" req2 = Ok (Some file2) ->
    buffer file1 = buffer file2 ->
    fresh_uuid req1 = fresh_uuid req2 ->
    now_iso req1 = now_iso req2 ->
    post_predict lm req1 log = post_predict lm req2 log.
Proof.
  intros lm req1 req2 file1 file2 log H1 H2 Hbuf Hid Hnow.
  unfold post_predict. rewrite H1, H2, !handler_run_file, Hbuf.
  destruct (predict lm (buffer file2) log) as [[l | e] log1]; [| reflexivity].
  unfold success_body. rewrite Hid, Hnow. reflexivity.
Qed.

(** X12. The alpha samples of a 4-channel tensor never reach the
    model: two such tensors that agree on every sample but those at
    positions 3, 7, 11, ... preprocess to the same tensor. *)
Theorem alpha_ignored : forall t1 t2 h w,
  shape3 t1 = (h, w, 4) ->
  shape3 t2 = (h, w, 4) ->
  dtype3 t1 = dtype3 t2 ->
  (forall i, i mod 4 <> 3 ->
     nth i (values3 t1) None = nth i (values3 t2) None) ->
  preprocess t1 = preprocess t2.
Proof.
  intros t1 t2 h w Hs1 Hs2 Hd Hrgb.
  assert (Hdrop : drop_alpha t1 = drop_alpha t2).
  { unfold drop_alpha. rewrite Hs1, Hs2. cbn [snd Nat.eqb].
    rewrite (slice_alpha_values t1 Hs1), (slice_alpha_values t2 Hs2), Hd.
    do 2 f_equal.
    apply flat_map_ext. intros i. apply flat_map_ext. intros j.
    apply map_ext_in. intros k Hk. apply in_seq in Hk.
    rewrite !read_sample_nat. apply Hrgb.
    rewrite Nat.add_comm, Nat.Div0.mod_add, Nat.mod_small by lia. lia. }
  unfold preprocess. rewrite Hdrop. reflexivity.
Qed.

Lemma alpha_ignored_witness :
  preprocess Fixture.red_pixel = preprocess StartupFixture.red_pixel_transparent.
Proof.
  apply (@alpha_ignored Fixture.red_pixel StartupFixture.red_pixel_transparent 1 1).
  - reflexivity.
  - reflexivity.
  - reflexivity.
  - intros i Hi.
    destruct i as [| [| [| [| i]]]]; try reflexivity.
    exfalso. apply Hi. reflexivity.
Defined.

(** X13. The line "Server is running on port ..." is printed
    exactly when the model was fetched; then the three lines come in
    the order loading, loaded, running and the callback completes with
    the model; a failed fetch logs the error and exits with code 1
    without that line.  The port printed is 4000 exactly when the
    environment variable is unset, empty or "4000". *)
Theorem startup_console : forall env_PORT loadGraphModel log,
  ~ In (EvConsoleLog (running_message (PORT env_PORT))) log ->
  (In (EvConsoleLog (running_message (PORT env_PORT)))
      (snd (listen_callback env_PORT loadGraphModel log)) <->
   exists m, loadGraphModel MODEL_URL = Ok m) /\
  (forall m, loadGraphModel MODEL_URL = Ok m ->
     listen_callback env_PORT loadGraphModel log =
     (Completed (Some m),
      log ++ [EvConsoleLog ("Loading model from: " ++ MODEL_URL);
              EvConsoleLog "Model loaded successfully";
              EvConsoleLog (running_message (PORT env_PORT))])) /\
  (forall err, loadGraphModel MODEL_URL = Throw err ->
     listen_callback env_PORT loadGraphModel log =
     (ProcessExit 1,
      log ++ [EvConsoleLog ("Loading model from: " ++ MODEL_URL);
              EvConsoleError "Error loading model:" (message err)])) /\
  (PORT env_PORT = "4000"%string <->
   env_PORT = None \/ env_PORT = Some ""%string \/ env_PORT = Some "4000"%string).
Proof.
  intros env_PORT loadGraphModel log Hfresh.
  assert (Hok : forall m, loadGraphModel MODEL_URL = Ok m ->
            listen_callback env_PORT loadGraphModel log =
            (Completed (Some m),
             log ++ [EvConsoleLog ("Loading model from: " ++ MODEL_URL);
                     EvConsoleLog "Model loaded successfully";
                     EvConsoleLog (running_message (PORT env_PORT))])).
  { intros m Hm. unfold listen_callback, loadModel. rewrite Hm.
    rewrite <- !app_assoc. reflexivity. }
  assert (Hko : forall err, loadGraphModel MODEL_URL = Throw err ->
            listen_callback env_PORT loadGraphModel log =
            (ProcessExit 1,
             log ++ [EvConsoleLog ("Loading model from: " ++ MODEL_URL);
                     EvConsoleError "Error loading model:" (message err)])).
  { intros err He. unfold listen_callback, loadModel. rewrite He.
    rewrite <- !app_assoc. reflexivity. }
  split; [| split; [exact Hok | split; [exact Hko |]]].
  - destruct (loadGraphModel MODEL_URL) as [m | err] eqn:Hfetch.
    + rewrite (Hok m eq_refl). cbn [snd]. split; [eauto |].
      intros _. apply in_or_app. right. right. right. left. reflexivity.
    + rewrite (Hko err eq_refl). cbn [snd]. split.
      * intros Hin. exfalso. apply in_app_or in Hin.
        destruct Hin as [Hin | [Hin | [Hin | []]]].
        -- exact (Hfresh Hin).
        -- unfold running_message in Hin. cbn in Hin. inversion Hin.
        -- discriminate Hin.
      * intros [m Hm]. discriminate.
  - unfold PORT. split.
    + destruct env_PORT as [[| c p] |]; auto.
      intros H. right; right. f_equal. exact H.
    + intros [-> | [-> | ->]]; reflexivity.
Qed.

Lemma startup_console_witness :
  (In (EvConsoleLog (running_message (PORT None)))
      (snd (listen_callback None StartupFixture.fetch_fail [])) <->
   exists m, StartupFixture.fetch_fail MODEL_URL = Ok m) /\
  (forall m, StartupFixture.fetch_fail MODEL_URL = Ok m ->
     listen_callback None StartupFixture.fetch_fail [] =
     (Completed (Some m),
      [] ++ [EvConsoleLog ("Loading model from: " ++ MODEL_URL);
             EvConsoleLog "Model loaded successfully";
             EvConsoleLog (running_message (PORT None))])) /\
  (forall err, StartupFixture.fetch_fail MODEL_URL = Throw err ->
     listen_callback None StartupFixture.fetch_fail [] =
     (ProcessExit 1,
      [] ++ [EvConsoleLog ("Loading model from: " ++ MODEL_URL);
             EvConsoleError "Error loading model:" (message err)])) /\
  (PORT None = "4000"%string <->
   @None string = None \/ None = Some ""%string \/ None = Some "4000"%string).
Proof.
  apply (@startup_console None StartupFixture.fetch_fail []).
  intros H. exact H.
Defined.

(** ** Traces of the process *)

Lemma two_splits : forall (A : Type) (a b : A) l1 l2 l3 l4,
  l1 ++ a :: l2 = l3 ++ b :: l4 -> a <> b -> In b l1 \/ In a l3.
Proof.
  intros A a b l1. induction l1 as [| x l1 IH]; intros l2 l3 l4 H Hne.
  - destruct l3 as [| y l3]; simpl in H.
    + inversion H. contradiction.
    + inversion H. right. left. reflexivity.
  - destruct l3 as [| y l3]; simpl in H.
    + inversion H. left. left. reflexivity.
    + inversion H. destruct (IH _ _ _ H2 Hne) as [Hin | Hin].
      * left. right. exact Hin.
      * right. right. exact Hin.
Qed.

Lemma no_loaded_count : forall tr,
  ~ In PModelLoaded tr -> List.length (filter is_model_loaded tr) = 0.
Proof.
  induction tr as [| e tr IH]; intros Hn; [reflexivity |].
  destruct e; simpl; try (apply IH; intros Hin; apply Hn; right; exact Hin).
  exfalso. apply Hn. left. reflexivity.
Qed.

Section TraceFacts.
Context {P : Packages}.

(** Without a model no request is answered with 200. *)
Lemma no_model_no_success : forall req log r log',
  post_predict None req log = (Ok r, log') -> status r <> 200.
Proof.
  intros req log r log'. unfold post_predict.
  destruct (upload_single "image" req) as [[file |] | err].
  - rewrite handler_run_file, predict_run.
    destruct (predict_body_no_model (buffer file) log) as (e & l1 & ->).
    intros H; inversion H; subst r. cbn [status]. discriminate.
  - rewrite handler_run_nofile. intros H; inversion H; subst r.
    cbn [status]. discriminate.
  - rewrite error_middleware_run. intros H; inversion H; subst r.
    cbn [status]. discriminate.
Qed.

Lemma step_preserves_trace_invariant : forall p q,
  step p q -> startup_invariant p -> trace_invariant p -> trace_invariant q.
Proof.
  intros p q Hstep Hstart. unfold trace_invariant, startup_invariant in *.
  destruct Hstep as [p Hph | p m Hph | p Hph | p req r log Hacc Hrun];
    cbn [proc_phase trace].
  - rewrite Hph. intros ->. cbn [app]. repeat split.
    + intros code [H | [H | []]]; discriminate.
    + intros [H | [H | []]]; discriminate.
    + intros r [H | [H | []]]; discriminate.
  - rewrite Hph. intros (Hne & Hnl & Hns). split.
    + intros code Hin. apply in_app_or in Hin.
      destruct Hin as [Hin | [Hin | []]]; [exact (Hne code Hin) | discriminate].
    + exists (trace p), []. repeat split; auto.
  - rewrite Hph. intros (Hne & Hnl & Hns). exists (trace p). auto.
  - unfold accepting in Hacc.
    destruct (proc_phase p) eqn:Hph; try discriminate.
    + intros (Hne & Hnl & Hns). destruct Hstart as (Hm & _).
      rewrite Hm in Hrun. repeat split.
      * intros code Hin. apply in_app_or in Hin.
        destruct Hin as [Hin | [Hin | []]]; [exact (Hne code Hin) | discriminate].
      * intros Hin. apply in_app_or in Hin.
        destruct Hin as [Hin | [Hin | []]]; [exact (Hnl Hin) | discriminate].
      * intros r0 Hin. apply in_app_or in Hin.
        destruct Hin as [Hin | [Hin | []]]; [exact (Hns r0 Hin) |].
        inversion Hin; subst r0. eapply no_model_no_success. exact Hrun.
    + intros (Hne & pre & post & Htr & Hpre & Hpost & Hns). split.
      * intros code Hin. apply in_app_or in Hin.
        destruct Hin as [Hin | [Hin | []]]; [exact (Hne code Hin) | discriminate].
      * exists pre, (post ++ [PResponse r]). repeat split; auto.
        -- rewrite Htr, <- app_assoc. reflexivity.
        -- intros Hin. apply in_app_or in Hin.
           destruct Hin as [Hin | [Hin | []]]; [exact (Hpost Hin) | discriminate].
Qed.

Lemma reachable_trace_invariant : forall p,
  reachable p -> trace_invariant p.
Proof.
  intros p Hr. induction Hr as [| p q Hr IH Hstep].
  - reflexivity.
  - eapply step_preserves_trace_invariant; try eassumption.
    apply reachable_invariant. exact Hr.
Qed.

End TraceFacts.

(** X14. The model variable is assigned at most once per process; it
    is set exactly when that assignment is in the trace; and once the
    process is ready every further step leaves the phase and the model
    as they are. *)
Theorem model_assigned_once {P : Packages} : forall p,
  reachable p ->
  loads_done p <= 1 /\
  (loads_done p = 1 <-> loadedModel p <> None) /\
  (proc_phase p = Ready ->
   forall q, step p q ->
     proc_phase q = Ready /\ loadedModel q = loadedModel p).
Proof.
  intros p Hr.
  pose proof (reachable_invariant Hr) as Hs.
  pose proof (reachable_trace_invariant Hr) as Ht.
  unfold startup_invariant in Hs. unfold trace_invariant in Ht.
  unfold loads_done.
  assert (Hcount :
            List.length (filter is_model_loaded (trace p)) =
            match proc_phase p with Ready => 1 | _ => 0 end).
  { destruct (proc_phase p).
    - rewrite Ht. reflexivity.
    - apply no_loaded_count. tauto.
    - destruct Ht as (_ & pre & post & -> & Hpre & Hpost & _).
      rewrite filter_app, length_app. cbn [filter is_model_loaded List.length].
      rewrite (@no_loaded_count pre Hpre), (@no_loaded_count post Hpost). reflexivity.
    - destruct Ht as (tr & -> & _ & Hnl & _).
      rewrite filter_app, length_app, (@no_loaded_count tr Hnl). reflexivity. }
  rewrite Hcount. split; [| split].
  - destruct (proc_phase p); lia.
  - destruct (proc_phase p).
    + destruct Hs as [-> _]. split; [discriminate | intros H; contradiction].
    + destruct Hs as [-> _]. split; [discriminate | intros H; contradiction].
    + destruct Hs as [Hm _]. split; auto.
    + destruct Hs as (_ & -> & _). split; [discriminate | intros H; contradiction].
  - intros Hph q Hstep.
    destruct Hstep as [p Hph' | p m Hph' | p Hph' | p req r log Hacc Hrun];
      try congruence.
    cbn [proc_phase loadedModel]. auto.
Qed.

Lemma model_assigned_once_witness :
  loads_done StartupFixture.ready_state <= 1 /\
  (loads_done StartupFixture.ready_state = 1 <->
   loadedModel StartupFixture.ready_state <> None) /\
  (proc_phase StartupFixture.ready_state = Ready ->
   forall q, @step Fixture.packages StartupFixture.ready_state q ->
     proc_phase q = Ready /\
     loadedModel q = loadedModel StartupFixture.ready_state).
Proof.
  apply (@model_assigned_once Fixture.packages StartupFixture.ready_state).
  apply reach_step with (p := listening_state).
  - apply reach_step with (p := initial); [apply reach_init |].
    apply (step_listen initial). reflexivity.
  - apply (step_load_ok listening_state (Fixture.constant_model 0.75)).
    reflexivity.
Defined.

(** X15. [process.exit] is the last thing a process does: an exit in
    the trace is its final event, its code is 1, and nothing is
    answered after it. *)
Theorem exit_is_last {P : Packages} : forall p pre code post,
  reachable p ->
  trace p = pre ++ PExit code :: post ->
  post = [] /\ code = 1 /\ proc_phase p = Exited 1.
Proof.
  intros p pre code post Hr Htr.
  pose proof (reachable_invariant Hr) as Hs.
  pose proof (reachable_trace_invariant Hr) as Ht.
  unfold startup_invariant in Hs. unfold trace_invariant in Ht.
  assert (Hin : In (PExit code) (trace p))
    by (rewrite Htr; apply in_or_app; right; left; reflexivity).
  destruct (proc_phase p) as [| | | c].
  - rewrite Ht in Hin. destruct Hin.
  - destruct Ht as (Hne & _). exfalso. exact (Hne code Hin).
  - destruct Ht as (Hne & _). exfalso. exact (Hne code Hin).
  - destruct Hs as (-> & _). destruct Ht as (tr & Htr' & Hne & _).
    rewrite Htr in Htr'.
    destruct post as [| x post'] using rev_ind.
    + apply app_inj_tail in Htr'. destruct Htr' as [_ Hc].
      inversion Hc. auto.
    + exfalso. clear IHpost'.
      rewrite app_comm_cons, app_assoc in Htr'.
      apply app_inj_tail in Htr'. destruct Htr' as [Htr' _].
      apply (Hne code). rewrite <- Htr'. apply in_or_app. right. left. reflexivity.
Qed.

Lemma exit_is_last_witness :
  @nil pevent = [] /\ 1 = 1 /\ proc_phase StartupFixture.exited_state = Exited 1.
Proof.
  apply (@exit_is_last Fixture.packages StartupFixture.exited_state
           [PListening; PLoadModelCalled] 1 []).
  - apply reach_step with (p := listening_state).
    + apply reach_step with (p := initial); [apply reach_init |].
      apply (step_listen initial). reflexivity.
    + apply (step_load_fail listening_state). reflexivity.
  - reflexivity.
Defined.

(** X16. No request is answered with 200 before the model has been
    loaded: every 200 answer in the trace comes after the load
    event. *)
Theorem no_success_before_load {P : Packages} : forall p pre r post,
  reachable p ->
  trace p = pre ++ PResponse r :: post ->
  status r = 200 ->
  In PModelLoaded pre.
Proof.
  intros p pre r post Hr Htr H200.
  pose proof (reachable_trace_invariant Hr) as Ht.
  unfold trace_invariant in Ht.
  assert (Hin : In (PResponse r) (trace p))
    by (rewrite Htr; apply in_or_app; right; left; reflexivity).
  destruct (proc_phase p) as [| | | c].
  - rewrite Ht in Hin. destruct Hin.
  - destruct Ht as (_ & _ & Hns). exfalso. exact (Hns r Hin H200).
  - destruct Ht as (_ & pre0 & post0 & Htr0 & _ & _ & Hns).
    rewrite Htr in Htr0. symmetry in Htr0.
    destruct (two_splits _ _ _ _ Htr0) as [Hin0 | Hin0].
    + discriminate.
    + exfalso. exact (Hns r Hin0 H200).
    + exact Hin0.
  - destruct Ht as (tr & Htr0 & _ & _ & Hns).
    rewrite Htr0 in Hin. apply in_app_or in Hin.
    destruct Hin as [Hin | [Hin | []]]; [| discriminate].
    exfalso. exact (Hns r Hin H200).
Qed.

Lemma no_success_before_load_witness :
  In PModelLoaded [PListening; PLoadModelCalled; PModelLoaded].
Proof.
  apply (@no_success_before_load Fixture.packages StartupFixture.answered_state
           [PListening; PLoadModelCalled; PModelLoaded]
           StartupFixture.red_answer []).
  - apply reach_step with (p := StartupFixture.ready_state).
    + apply reach_step with (p := listening_state).
      * apply reach_step with (p := initial); [apply reach_init |].
        apply (step_listen initial). reflexivity.
      * apply (step_load_ok listening_state (Fixture.constant_model 0.75)).
        reflexivity.
    + apply (@step_request Fixture.packages StartupFixture.ready_state
               (Fixture.upload_of "scan.png" "image/png" Fixture.red_png)
               StartupFixture.red_answer
               [EvPngRead Fixture.red_png; EvModelPredict]).
      * reflexivity.
      * vm_compute. reflexivity.
  - reflexivity.
  - reflexivity.
Defined.

(** X5. Whenever the decode step yields a tensor, preprocessing
    succeeds and the model is called exactly once, on a float32 tensor
    of shape [1, 224, 224, k], where k is 3 for a 4-channel tensor and
    the decoded channel count otherwise (the code does not require 3);
    for a PNG-tagged buffer k is always 3.  What [predict]'s [try]
    block returns is the threshold applied to the model's answer, or
    the model's error. *)
Theorem model_input_shape {P : Packages} : forall m buf log t,
  fst (decode_input buf log) = Ok t ->
  exists u,
    preprocess t = Ok u /\
    shape4 u =
    (1, 224, 224, if Nat.eqb (snd (shape3 t)) 4 then 3 else snd (shape3 t)) /\
    (is_png_header buf = true -> shape4 u = (1, 224, 224, 3)) /\
    dtype4 u = float32 /\
    predict_body (Some m) buf log =
    (match predict_data m u with
     | Ok predictions => Ok (label_of predictions)
     | Throw e => Throw e
     end,
     log ++ [if is_png_header buf then EvPngRead buf else EvJpegDecode buf;
             EvModelPredict]).
Proof.
  intros m buf log t Hdec.
  destruct (preprocess_total_shape t) as (u & Hpre & Hshape & Hdt & _).
  exists u. split; [exact Hpre |]. split; [exact Hshape |].
  split; [| split; [exact Hdt |]].
  - intros Hpng. rewrite Hshape.
    unfold decode_input in Hdec. rewrite Hpng, decode_png_run in Hdec.
    cbn [fst] in Hdec.
    destruct (pngjs_sync_read buf) as [png | e]; [| discriminate].
    apply tensor3d_shape in Hdec.
    destruct Hdec as (h & w & c & _ & _ & Hc & _ & ->).
    rewrite as_dimension_nat in Hc. inversion Hc; subst c. reflexivity.
  - rewrite decode_input_result in Hdec.
    rewrite predict_body_run, Hdec, Hpre. reflexivity.
Qed.

Lemma model_input_shape_witness :
  exists u,
    preprocess Fixture.red_pixel = Ok u /\
    shape4 u =
    (1, 224, 224,
     if Nat.eqb (snd (shape3 Fixture.red_pixel)) 4
     then 3 else snd (shape3 Fixture.red_pixel)) /\
    (is_png_header Fixture.red_png = true -> shape4 u = (1, 224, 224, 3)) /\
    dtype4 u = float32 /\
    predict_body (Some (Fixture.constant_model 0.75)) Fixture.red_png [] =
    (match predict_data (Fixture.constant_model 0.75) u with
     | Ok predictions => Ok (label_of predictions)
     | Throw e => Throw e
     end,
     [] ++ [if is_png_header Fixture.red_png
            then EvPngRead Fixture.red_png
            else EvJpegDecode Fixture.red_png;
            EvModelPredict]).
Proof.
  apply (@model_input_shape Fixture.packages (Fixture.constant_model 0.75)
           Fixture.red_png [] Fixture.red_pixel).
  reflexivity.
Defined.

Lemma status_classification_witness :
  (status (mkResponse 400 (fail_body "No file uploaded")) = 400 <->
   forall file, upload_single "image" Fixture.empty_request <> Ok (Some file)) /\
  (status (mkResponse 400 (fail_body "No file uploaded")) = 500 <->
   exists file e log1,
     upload_single "image" Fixture.empty_request = Ok (Some file) /\
     predict_body None (buffer file) [] = (Throw e, log1)) /\
  (status (mkResponse 400 (fail_body "No file uploaded")) = 200 <->
   exists file label log1,
     upload_single "image" Fixture.empty_request = Ok (Some file) /\
     predict_body None (buffer file) [] = (Ok label, log1)).
Proof.
  apply (@status_classification Fixture.packages None Fixture.empty_request []
           (mkResponse 400 (fail_body "No file uploaded")) []).
  reflexivity.
Defined.

Lemma declared_type_irrelevant_witness :
  post_predict (Some (Fixture.constant_model 0.75))
    (Fixture.upload_of "scan.png" "image/png" Fixture.red_png) [] =
  post_predict (Some (Fixture.constant_model 0.75))
    (Fixture.upload_of "photo.JPG" "image/jpeg" Fixture.red_png) [].
Proof.
  apply (@declared_type_irrelevant Fixture.packages
           (Some (Fixture.constant_model 0.75))
           (Fixture.upload_of "scan.png" "image/png" Fixture.red_png)
           (Fixture.upload_of "photo.JPG" "image/jpeg" Fixture.red_png)
           (mkFile "image" "scan.png" "image/png" Fixture.red_png)
           (mkFile "image" "photo.JPG" "image/jpeg" Fixture.red_png) []);
    reflexivity.
Defined.
